(** * The Drop Zone storefront backend: cart engine and OTP login

    A shallow embedding of [src/main.py] (FastAPI handlers over a document
    store) and [src/schemas.py] (the Pydantic document schemas), followed by
    the properties of the cart aggregate, the enrichment view and the OTP
    gated session issuance.

    Conventions of the embedding:
    - a Python [str] is a [string]; each [ascii] stands for one code point
      below 256;
    - a Python [int] is a [Z]; the store holds 8-byte ints only, and a
      write of a larger one raises [OverflowError];
    - a Python [float] is an IEEE 754 binary64 number, a [spec_float] with
      the operations of the Standard Library at precision 53;
    - a handler is a function from the store to an outcome (a returned
      value, a raised [HTTPException] or an uncaught [OverflowError]) and
      the store it leaves behind. *)

From Stdlib Require Import ZArith NArith String Ascii List SpecFloat.
From stdpp Require Import base option list numbers gmap strings fin_maps.

Local Open Scope string_scope.
Local Open Scope list_scope.
Local Open Scope Z_scope.

(* ===================================================================== *)
(** ** Python strings: [str.isspace] and [str.strip]                       *)
(* ===================================================================== *)

(** The code points below 256 that [str.isspace] accepts: TAB..CR,
    FS..US, SPACE, NEL and NBSP. *)
Definition isspace (c : ascii) : bool :=
  let n := N_of_ascii c in
  (((9 <=? n) && (n <=? 13)) || ((28 <=? n) && (n <=? 32))
   || (n =? 133) || (n =? 160))%N.

Fixpoint lstrip (s : string) : string :=
  match s with
  | EmptyString => EmptyString
  | String c s' => if isspace c then lstrip s' else s
  end.

Fixpoint rstrip (s : string) : string :=
  match s with
  | EmptyString => EmptyString
  | String c s' =>
      match rstrip s' with
      | EmptyString => if isspace c then EmptyString else String c EmptyString
      | r => String c r
      end
  end.

(** [s.strip()] *)
Definition strip (s : string) : string := rstrip (lstrip s).

(** The first character of [s] is whitespace. *)
Definition leading_space (s : string) : bool :=
  match s with
  | EmptyString => false
  | String c _ => isspace c
  end.

(** The last character of [s] is whitespace. *)
Fixpoint trailing_space (s : string) : bool :=
  match s with
  | EmptyString => false
  | String c EmptyString => isspace c
  | String _ s' => trailing_space s'
  end.

(** Truth value of an [Optional[str]]: [None] and the empty string are
    falsy. [nonempty o] is [Some s] exactly when [o] is truthy. *)
Definition nonempty (o : option string) : option string :=
  match o with
  | Some EmptyString => None
  | Some s => Some s
  | None => None
  end.

(* ===================================================================== *)
(** ** Python floats                                                       *)
(* ===================================================================== *)

(** A Python [float]: binary64, that is precision 53 and infinities at
    exponent 1024. *)
Definition float : Type := spec_float.
Definition prec : Z := 53.
Definition emax : Z := 1024.

(** [x + y], [x * y] and [x / y] on floats: correctly rounded, ties to
    even. *)
Definition fadd : float -> float -> float := SFadd prec emax.
Definition fmul : float -> float -> float := SFmul prec emax.
Definition fdiv : float -> float -> float := SFdiv prec emax.

(** The least magnitude whose nearest float would be [2 ^ 1024]: half an
    ulp above the largest float. *)
Definition int_too_large : Z := 2 ^ 1024 - 2 ^ 970.

(** The conversion of an int operand in [int * float] and [int + float]:
    the nearest float, ties to even; [None] stands for the [OverflowError]
    (int too large to convert to float) raised when there is none. *)
Definition float_of_int (z : Z) : option float :=
  if decide (Z.abs z < int_too_large) then
    Some (binary_normalize prec emax z 0 false)
  else None.

(** [n / d] rounded to the nearest integer, ties to even, for [0 < d]. *)
Definition round_half_even (n d : Z) : Z :=
  let q := n / d in
  let r := n mod d in
  match 2 * r ?= d with
  | Lt => q
  | Gt => q + 1
  | Eq => if Z.even q then q else q + 1
  end.

(** The number of hundredths nearest to [m * 2 ^ e]. *)
Definition hundredths (m : positive) (e : Z) : Z :=
  match e with
  | Zneg k => round_half_even (Z.pos m * 100) (2 ^ Z.pos k)
  | _ => Z.pos m * 100 * 2 ^ e
  end.

(** [round(x, 2)] on a float: the decimal with two places nearest to the
    exact value of [x] (ties to even), read back as the nearest float; zeros,
    infinities and NaN round to themselves, and the sign is kept. *)
Definition round2 (x : float) : float :=
  match x with
  | S754_finite s m e =>
      match hundredths m e with
      | Z.pos n => fdiv (S754_finite s n 0) (S754_finite false 100 0)
      | _ => S754_zero s
      end
  | _ => x
  end.

(** The value of [subtotal] in [get_cart]: the int it starts as, or a
    float once a product was added to it. *)
Inductive Number :=
  | Int (z : Z)
  | Float (x : float).

(** [round(n, 2)]: an int rounds to itself. *)
Definition round_number (n : Number) : Number :=
  match n with
  | Int z => Int z
  | Float x => Float (round2 x)
  end.

(** The ints a document of the store can hold: 8 bytes, signed. *)
Definition int64 (z : Z) : Prop := - 2 ^ 63 <= z < 2 ^ 63.

#[export] Instance int64_dec z : Decision (int64 z).
Proof. unfold int64. apply _. Defined.

(* ===================================================================== *)
(** ** Documents ([src/schemas.py] and the dict literals of [src/main.py]) *)
(* ===================================================================== *)

Record SizeStock := mkSizeStock {
  ss_size : string;
  ss_stock : Z;
}.

Record Product := mkProduct {
  p_slug : string;
  p_name : string;
  p_price : float;
  p_category : string;
  p_accent : string;
  p_images : list string;
  p_sizes : list SizeStock;
  p_is_limited : bool;
}.

Record OTPRequest := mkOTPRequest { req_phone : string }.

Record OTPVerify := mkOTPVerify { ver_phone : string; ver_code : string }.

(** A document of the [otp] collection: [{"phone": .., "code": ..}]. *)
Record OtpDoc := mkOtpDoc { otp_phone : string; otp_code : string }.

(** [ObjectId] values; [str(ObjectId())] and [ObjectId(session_id)] are
    inverse renderings, so a session identity is kept as the [ObjectId]. *)
Definition ObjectId := N.

(** A document of the [session] collection: [{"_id": .., "phone": ..}]. *)
Record SessionDoc := mkSessionDoc { sess_id : ObjectId; sess_phone : string }.

(** A persisted line item: [{"slug": .., "size": .., "qty": ..}]. The code
    reads [size] and [qty] with [dict.get], so either key may be absent. *)
Record Item := mkItem {
  it_slug : string;
  it_size : option string;
  it_qty : option Z;
}.

(** A document of the [cart] collection minus its [_id], which is the key it
    is stored under. [get_cart] creates it with ["subtotal": 0],
    [add_to_cart] without that key. *)
Record CartDoc := mkCartDoc {
  cart_items : list Item;
  cart_subtotal : option Z;
}.

(** A line item the store can hold: its quantity, when it has one, is an
    8-byte int. *)
Definition item_encodable (it : Item) : Prop :=
  match it_qty it with
  | Some q => int64 q
  | None => True
  end.

#[export] Instance item_encodable_dec it : Decision (item_encodable it).
Proof. unfold item_encodable. destruct (it_qty it); apply _. Defined.

(** An item sequence the store can hold. *)
Definition encodable (items : list Item) : Prop :=
  Forall item_encodable items.

Record QuickAdd := mkQuickAdd {
  qa_slug : string;
  qa_size : option string;
  qa_qty : Z;
}.

Record UpdateItem := mkUpdateItem {
  ui_slug : string;
  ui_size : string;
  ui_qty : option Z;
  ui_remove : option bool;
}.

(** The keys [get_cart] adds to a line item whose product resolves. *)
Record Enrichment := mkEnrichment {
  e_name : string;
  e_price : float;
  e_accent : string;
  e_image : option string;
}.

(** A line item of the returned cart: the persisted keys, and the
    enrichment keys when they were attached. *)
Record ItemView := mkItemView {
  iv_item : Item;
  iv_enrich : option Enrichment;
}.

(** The dict [get_cart] returns. *)
Record CartView := mkCartView {
  cv_id : string;
  cv_items : list ItemView;
  cv_subtotal : Number;
}.

Record OtpResponse := mkOtpResponse {
  resp_ok : bool;
  resp_message : string;
  resp_code_demo : string;
}.

(* ===================================================================== *)
(** ** The document store and the handler monad                            *)
(* ===================================================================== *)

(** Modelled from the spec: the [database] module ([db], the document-store
    client) is not among the sources. Following section 6 of the spec, the
    store is addressable by collection name and document identity and
    supports point lookup, upsert-by-filter and field replacement. A
    collection queried by a field ([product] by slug, [otp] by phone) is the
    sequence of its documents in insertion order, and [find_one] returns the
    first match; [cart] is keyed by the caller-supplied [_id]. Every read
    returns a copy of the stored document. A document is encoded when it is
    written, and an int in it that does not fit 8 bytes makes the write
    raise [OverflowError] and store nothing; of the writes of the handlers
    only the one of the cart items carries ints taken from a request.
    [next_oid] is the state of the [ObjectId()] generator. *)
Record Store := mkStore {
  db_product : list Product;
  db_otp : list OtpDoc;
  db_session : list SessionDoc;
  db_cart : gmap string CartDoc;
  next_oid : ObjectId;
}.

Record HTTPException := mkHTTPException {
  status_code : Z;
  detail : string;
}.

(** How a handler ends: it returns, it raises an [HTTPException], or an
    [OverflowError] raised underneath it goes uncaught. *)
Inductive Outcome (A : Type) :=
  | Return (a : A)
  | Raise (e : HTTPException)
  | OverflowError.
Arguments Return {A}.
Arguments Raise {A}.
Arguments OverflowError {A}.

Definition Handler (A : Type) : Type := Store -> Outcome A * Store.

Definition raise {A} (e : HTTPException) : Handler A :=
  fun s => (Raise e, s).

#[export] Instance handler_ret : MRet Handler :=
  fun A a s => (Return a, s).

#[export] Instance handler_bind : MBind Handler :=
  fun A B k m s =>
    match m s with
    | (Return a, s') => k a s'
    | (Raise e, s') => (Raise e, s')
    | (OverflowError, s') => (OverflowError, s')
    end.

(** The value of an operation that raises [OverflowError] when it has
    none. *)
Definition or_overflow {A} (o : option A) : Handler A :=
  fun s =>
    match o with
    | Some a => (Return a, s)
    | None => (OverflowError, s)
    end.

(** [find_one({"slug": slug})] on the documents of the [product]
    collection: the first one with that slug. *)
Definition lookup_product (slug : string) (products : list Product)
  : option Product :=
  snd <$> list_find (fun p => p_slug p = slug) products.

(** [find_one({"phone": phone})] on the documents of the [otp] collection. *)
Definition lookup_otp (phone : string) (docs : list OtpDoc) : option OtpDoc :=
  snd <$> list_find (fun d => otp_phone d = phone) docs.

Section Database.

(** [db["product"].find_one({"slug": slug})] *)
Definition find_product (slug : string) : Handler (option Product) :=
  fun s => (Return (lookup_product slug (db_product s)), s).

(** [db["otp"].find_one({"phone": phone})] *)
Definition find_otp (phone : string) : Handler (option OtpDoc) :=
  fun s => (Return (lookup_otp phone (db_otp s)), s).

(** [db["otp"].update_one({"phone": phone}, {"$set": doc}, upsert=True)]:
    the first document under [phone] is overwritten; when there is none,
    [doc] is inserted. *)
Definition upsert_otp (phone : string) (doc : OtpDoc) : Handler unit :=
  fun s =>
    let docs :=
      match list_find (fun d => otp_phone d = phone) (db_otp s) with
      | Some (i, _) => <[i := doc]> (db_otp s)
      | None => db_otp s ++ [doc]
      end in
    (Return tt,
     mkStore (db_product s) docs (db_session s) (db_cart s) (next_oid s)).

(** [ObjectId()] *)
Definition new_ObjectId : Handler ObjectId :=
  fun s =>
    (Return (next_oid s),
     mkStore (db_product s) (db_otp s) (db_session s) (db_cart s)
       (N.succ (next_oid s))).

(** [db["session"].insert_one(doc)] *)
Definition insert_session (doc : SessionDoc) : Handler unit :=
  fun s =>
    (Return tt,
     mkStore (db_product s) (db_otp s) (db_session s ++ [doc]) (db_cart s)
       (next_oid s)).

(** [db["cart"].find_one({"_id": cart_id})] *)
Definition find_cart (cart_id : string) : Handler (option CartDoc) :=
  fun s => (Return (db_cart s !! cart_id), s).

(** [db["cart"].insert_one(cart)] *)
Definition insert_cart (cart_id : string) (doc : CartDoc) : Handler unit :=
  fun s =>
    (Return tt,
     mkStore (db_product s) (db_otp s) (db_session s)
       (<[cart_id := doc]> (db_cart s)) (next_oid s)).

(** [db["cart"].update_one({"_id": cart_id}, {"$set": {"items": items}})]:
    replaces the [items] field of the document, no upsert; raises
    [OverflowError], leaving the store as it is, when a quantity of [items]
    is not an 8-byte int. *)
Definition set_cart_items (cart_id : string) (items : list Item)
  : Handler unit :=
  fun s =>
    if decide (encodable items) then
      (Return tt,
       mkStore (db_product s) (db_otp s) (db_session s)
         (alter (fun d => mkCartDoc items (cart_subtotal d)) cart_id
            (db_cart s))
         (next_oid s))
    else (OverflowError, s).
End Database.

(* ===================================================================== *)
(** ** The handlers of [src/main.py]                                       *)
(* ===================================================================== *)

(** [i["slug"] == slug and i.get("size") == size] *)
Definition same_line (slug size : string) (i : Item) : Prop :=
  it_slug i = slug /\ it_size i = Some size.

#[export] Instance same_line_dec slug size i : Decision (same_line slug size i).
Proof. unfold same_line. apply _. Defined.

(** [i.get("qty", 1)] *)
Definition get_qty (i : Item) : Z := default 1 (it_qty i).

(** [next((s.get("size") for s in sizes if s.get("stock", 0) > 0), None)] *)
Definition first_in_stock (sizes : list SizeStock) : option string :=
  (fun r => ss_size (snd r)) <$> list_find (fun s => 0 < ss_stock s) sizes.

(** The size [add_to_cart] settles on: the requested one when it is truthy,
    else the first one in stock; [None] when that is falsy too, in which
    case the handler raises. *)
Definition resolve_size (sizes : list SizeStock) (size : option string)
  : option string :=
  let size :=
    match nonempty size with
    | Some size => Some size
    | None => first_in_stock sizes
    end in
  nonempty size.

(** [payload.remove or (payload.qty is not None and payload.qty <= 0)] *)
Definition drops (payload : UpdateItem) : bool :=
  default false (ui_remove payload)
  || match ui_qty payload with
     | Some q => q <=? 0
     | None => false
     end.

(** One iteration of the loop of [update_cart]; [new_items] is the list
    built so far. *)
Definition update_step (payload : UpdateItem) (new_items : list Item)
    (it : Item) : list Item :=
  if decide (same_line (ui_slug payload) (ui_size payload) it) then
    if drops payload then new_items
    else
      match ui_qty payload with
      | Some q => new_items ++ [mkItem (it_slug it) (it_size it) (Some q)]
      | None => new_items ++ [it]
      end
  else new_items ++ [it].

(** The merge of [add_to_cart] on the fetched item list: [exists] is the
    first line with the same slug and size, updated in place; without one a
    new line is appended. *)
Definition merge_item (slug size : string) (qty : Z) (items : list Item)
  : list Item :=
  match list_find (same_line slug size) items with
  | Some (i, exists_) =>
      <[i := mkItem (it_slug exists_) (it_size exists_)
               (Some (get_qty exists_ + Z.max 1 qty))]> items
  | None => items ++ [mkItem slug (Some size) (Some (Z.max 1 qty))]
  end.

Section Handlers.

Fixpoint for_each {A B} (body : B -> A -> Handler B) (acc : B)
    (l : list A) : Handler B :=
  match l with
  | [] => mret acc
  | x :: l' => acc' ← body acc x; for_each body acc' l'
  end.

Definition request_otp (payload : OTPRequest) : Handler OtpResponse :=
  let phone := strip (req_phone payload) in
  if decide (phone = "") then
    raise (mkHTTPException 400 "Phone required")
  else
    upsert_otp phone (mkOtpDoc phone "123456");;
    mret (mkOtpResponse true "OTP sent (demo)" "123456").

Definition verify_otp (payload : OTPVerify) : Handler ObjectId :=
  doc ← find_otp (ver_phone payload);
  match doc with
  | None => raise (mkHTTPException 401 "Invalid code")
  | Some doc =>
      if decide (ver_code payload ≠ otp_code doc) then
        raise (mkHTTPException 401 "Invalid code")
      else
        session_id ← new_ObjectId;
        insert_session (mkSessionDoc session_id (ver_phone payload));;
        mret session_id
  end.

(** [subtotal + x] for the running [subtotal] and a float [x]: an int
    [subtotal] is converted first. *)
Definition add_float (subtotal : Number) (x : float) : Handler float :=
  match subtotal with
  | Int z => y ← or_overflow (float_of_int z); mret (fadd y x)
  | Float y => mret (fadd y x)
  end.

(** The body of the enrichment loop of [get_cart]: the state is the list
    of items already visited and the running subtotal. *)
Definition enrich_step (acc : list ItemView * Number) (item : Item)
  : Handler (list ItemView * Number) :=
  p ← find_product (it_slug item);
  match p with
  | Some p =>
      qty ← or_overflow (float_of_int (get_qty item));
      subtotal ← add_float acc.2 (fmul qty (p_price p));
      mret (acc.1 ++ [mkItemView item
                        (Some (mkEnrichment (p_name p) (p_price p)
                                 (p_accent p) (head (p_images p))))],
            Float subtotal)
  | None => mret (acc.1 ++ [mkItemView item None], acc.2)
  end.

Definition get_cart (cart_id : string) : Handler CartView :=
  cart ← find_cart cart_id;
  cart ← match cart with
         | Some cart => mret cart
         | None =>
             let cart := mkCartDoc [] (Some 0) in
             insert_cart cart_id cart;; mret cart
         end;
  r ← for_each enrich_step ([], Int 0) (cart_items cart);
  mret (mkCartView cart_id r.1 (round_number r.2)).

Definition add_to_cart (cart_id : string) (payload : QuickAdd)
  : Handler bool :=
  p ← find_product (qa_slug payload);
  match p with
  | None => raise (mkHTTPException 404 "Product not found")
  | Some p =>
      match resolve_size (p_sizes p) (qa_size payload) with
      | None => raise (mkHTTPException 400 "No available size")
      | Some size =>
          cart ← find_cart cart_id;
          cart ← match cart with
                 | Some cart => mret cart
                 | None =>
                     let cart := mkCartDoc [] None in
                     insert_cart cart_id cart;; mret cart
                 end;
          set_cart_items cart_id
            (merge_item (qa_slug payload) size (qa_qty payload)
               (cart_items cart));;
          mret true
      end
  end.

Definition update_cart (cart_id : string) (payload : UpdateItem)
  : Handler bool :=
  cart ← find_cart cart_id;
  match cart with
  | None => raise (mkHTTPException 404 "Cart not found")
  | Some cart =>
      let new_items := foldl (update_step payload) [] (cart_items cart) in
      set_cart_items cart_id new_items;;
      mret true
  end.

(** *** Request sequences *)

Inductive Request :=
  | RequestOtp (payload : OTPRequest)
  | VerifyOtp (payload : OTPVerify)
  | GetCart (cart_id : string)
  | AddToCart (cart_id : string) (payload : QuickAdd)
  | UpdateCart (cart_id : string) (payload : UpdateItem).

(** The store a request leaves behind, whether it returns or raises. *)
Definition step (s : Store) (r : Request) : Store :=
  match r with
  | RequestOtp payload => (request_otp payload s).2
  | VerifyOtp payload => (verify_otp payload s).2
  | GetCart cart_id => (get_cart cart_id s).2
  | AddToCart cart_id payload => (add_to_cart cart_id payload s).2
  | UpdateCart cart_id payload => (update_cart cart_id payload s).2
  end.

Definition run (rs : list Request) (s : Store) : Store :=
  foldl step s rs.
End Handlers.

(* ===================================================================== *)
(** ** The seeded catalog                                                  *)
(* ===================================================================== *)

(** The float literal [n.0]. *)
Definition dollars (n : Z) : float := binary_normalize prec emax n 0 false.

(** The float nearest to [n / d], as a decimal literal reads. *)
Definition decimal (n d : Z) : float := fdiv (dollars n) (dollars d).

(** The documents [seed_products] creates. *)
Definition stealth_hoodie : Product :=
  mkProduct "stealth-hoodie" "Stealth Hoodie" (dollars 120) "hoodies" "#7CFF2E"
    ["https://images.unsplash.com/photo-1516826957135-700dedea698c?q=80&w=1600&auto=format&fit=crop";
     "https://images.unsplash.com/photo-1515378791036-0648a3ef77b2?q=80&w=1600&auto=format&fit=crop"]
    [mkSizeStock "S" 8; mkSizeStock "M" 2; mkSizeStock "L" 0; mkSizeStock "XL" 5]
    true.

Definition crest_tee : Product :=
  mkProduct "crest-tee" "Crest Tee" (dollars 55) "tees" "#00E5FF"
    ["https://images.unsplash.com/photo-1519741497674-611481863552?q=80&w=1600&auto=format&fit=crop";
     "https://images.unsplash.com/photo-1490481651871-ab68de25d43d?q=80&w=1600&auto=format&fit=crop"]
    [mkSizeStock "S" 15; mkSizeStock "M" 12; mkSizeStock "L" 6; mkSizeStock "XL" 1]
    false.

Definition volt_sneaker : Product :=
  mkProduct "volt-sneaker" "Volt Sneaker" (dollars 220) "sneakers" "#7CFF2E"
    ["https://images.unsplash.com/photo-1542291026-7eec264c27ff?q=80&w=1600&auto=format&fit=crop";
     "https://images.unsplash.com/photo-1525966222134-fcfa99b8ae77?q=80&w=1600&auto=format&fit=crop"]
    [mkSizeStock "7" 3; mkSizeStock "8" 0; mkSizeStock "9" 4; mkSizeStock "10" 2]
    true.

Definition seed : list (Product) :=
  [stealth_hoodie; crest_tee; volt_sneaker].

(** The store right after seeding. *)
Definition seeded : Store := mkStore seed [] [] ∅ 0%N.

(** A catalog whose first size in stock carries the empty label. *)
Definition blank_label_store : Store :=
  mkStore
    [mkProduct "plain-cap" "Plain Cap" (dollars 20) "caps" "#7CFF2E" []
       [mkSizeStock "" 5; mkSizeStock "M" 3] false]
    [] [] ∅ 0%N.

(** A catalog with a price that is no multiple of a cent in binary, 2.675,
    and with the largest float as a price; one of each is in a cart. *)
Definition odd_price_store : Store :=
  run [AddToCart "c1" (mkQuickAdd "patch" None 1);
       AddToCart "c2" (mkQuickAdd "vault" None 2)]
    (mkStore
       [mkProduct "patch" "Patch" (decimal 2675 1000) "patches" "#7CFF2E" []
          [mkSizeStock "one" 1] false;
        mkProduct "vault" "Vault" (S754_finite false (2 ^ 53 - 1) 971)
          "vaults" "#7CFF2E" [] [mkSizeStock "one" 1] true]
       [] [] ∅ 0%N).

(** Three requests for the small crest tee, the last one with an empty size
    and a quantity of 0. *)
Definition crest_adds : list QuickAdd :=
  [mkQuickAdd "crest-tee" None 1;
   mkQuickAdd "crest-tee" (Some "S") 2;
   mkQuickAdd "crest-tee" (Some "") 0].

(** A shopping session on cart [c1]. *)
Definition demo_requests : list Request :=
  [AddToCart "c1" (mkQuickAdd "crest-tee" None 1);
   AddToCart "c1" (mkQuickAdd "crest-tee" (Some "S") 2);
   AddToCart "c1" (mkQuickAdd "stealth-hoodie" (Some "M") 0);
   UpdateCart "c1" (mkUpdateItem "stealth-hoodie" "M" (Some 4) None)].

Definition demo_store : Store := run demo_requests seeded.

Definition demo_cart : CartDoc :=
  mkCartDoc
    [mkItem "crest-tee" (Some "S") (Some 3);
     mkItem "stealth-hoodie" (Some "M") (Some 4)]
    None.

#[export] Instance Item_eq_dec : EqDecision Item.
Proof. solve_decision. Defined.

#[export] Instance CartDoc_eq_dec : EqDecision CartDoc.
Proof. solve_decision. Defined.

(* ===================================================================== *)
(** ** Specification-side definitions                                      *)
(* ===================================================================== *)

(** The identity of a line item inside a cart. *)
Definition line_key (it : Item) : string * option string :=
  (it_slug it, it_size it).

(** A persisted quantity that is at least 1. *)
Definition line_ok (it : Item) : Prop :=
  exists q, it_qty it = Some q /\ 1 <= q.

(** The cart invariant of the data model: no two line items share a
    (slug, size) pair and every quantity is at least 1. *)
Definition cart_ok (c : CartDoc) : Prop :=
  NoDup (line_key <$> cart_items c) /\ Forall line_ok (cart_items c).

(** Every cart of the store satisfies the invariant. *)
Definition carts_ok (s : Store) : Prop :=
  map_Forall (fun _ c => cart_ok c) (db_cart s).

(** Every cart of the store is one the store can hold: its quantities are
    8-byte ints. *)
Definition carts_storable (s : Store) : Prop :=
  map_Forall (fun _ c => encodable (cart_items c)) (db_cart s).

(** Every cart of the store has an empty line-item sequence. *)
Definition carts_empty (s : Store) : Prop :=
  map_Forall (fun _ c => cart_items c = []) (db_cart s).

(** The store with the cart document under [cart_id] set to [c]. *)
Definition put_cart (s : Store) (cart_id : string) (c : CartDoc)
  : Store :=
  mkStore (db_product s) (db_otp s) (db_session s)
    (<[cart_id := c]> (db_cart s)) (next_oid s).

(** The line items of the cart under [cart_id]; none when there is no such
    cart. *)
Definition items_of (s : Store) (cart_id : string) : list Item :=
  match db_cart s !! cart_id with
  | Some c => cart_items c
  | None => []
  end.

(** What [updateItem] does to one line item, in the words of the
    specification: a matching item is dropped when [remove] is set or a
    quantity of at most 0 is supplied, gets a supplied positive quantity in
    place of its own, and is kept as it is otherwise; a non-matching item is
    kept as it is. *)
Definition updateItem_line (slug size : string) (qty : option Z)
    (remove : bool) (it : Item) : option Item :=
  if decide (same_line slug size it) then
    match qty with
    | Some q =>
        if remove then None
        else if decide (q <= 0) then None
        else Some (mkItem (it_slug it) (it_size it) (Some q))
    | None => if remove then None else Some it
    end
  else Some it.

(** The item sequence [updateItem] produces, in the original order. *)
Definition updateItem_items (payload : UpdateItem) (items : list Item)
  : list Item :=
  omap (updateItem_line (ui_slug payload) (ui_size payload) (ui_qty payload)
          (default false (ui_remove payload))) items.

(** The sum of the effective quantities of a sequence of requests. *)
Definition effective_total (payloads : list QuickAdd) : Z :=
  foldr (fun payload acc => Z.max 1 (qa_qty payload) + acc) 0 payloads.

(** A request for product line [slug] that resolves to [size] given the
    declared [sizes]. *)
Definition resolves_to (slug size : string) (sizes : list SizeStock)
    (payload : QuickAdd) : Prop :=
  qa_slug payload = slug /\ resolve_size sizes (qa_size payload) = Some size.

#[export] Instance resolves_to_dec slug size sizes payload :
  Decision (resolves_to slug size sizes payload).
Proof. unfold resolves_to. apply _. Defined.

(** The store left by an [add_to_cart] whose write of the items failed: the
    cart document exists, created empty when it was missing. *)
Definition ensure_cart (s : Store) (cart_id : string) : Store :=
  match db_cart s !! cart_id with
  | Some _ => s
  | None => put_cart s cart_id (mkCartDoc [] None)
  end.

(** The quantity of a line item; an item without one counts once. *)
Definition quantity (it : Item) : Z :=
  match it_qty it with
  | Some q => q
  | None => 1
  end.

(** The line items whose slug resolves in the catalog. *)
Definition resolvable (products : list Product) (items : list Item)
  : list Item :=
  filter (fun it => is_Some (lookup_product (it_slug it) products)) items.

(** Quantity times current catalog price, as floats multiply; [None] when
    the slug does not resolve or the quantity is too large for a float. *)
Definition amount (products : list Product) (it : Item) : option float :=
  p ← lookup_product (it_slug it) products;
  q ← float_of_int (quantity it);
  Some (fmul q (p_price p)).

(** The amounts of the resolvable lines, in cart order; [None] when one of
    their quantities is too large for a float. *)
Definition amounts (products : list Product) (items : list Item)
  : option (list float) :=
  mapM (amount products) (resolvable products items).

(** The sum of [ts] as [get_cart] accumulates it: the int 0 when there is
    nothing to add, else the float sum from 0 taken from left to right. *)
Definition running (ts : list float) : Number :=
  match ts with
  | [] => Int 0
  | _ => Float (foldl fadd (S754_zero false) ts)
  end.

(** The subtotal of a cart whose resolvable lines amount to [ts]: their
    sum rounded to 2 decimal places. *)
Definition subtotal_of (ts : list float) : Number :=
  match ts with
  | [] => Int 0
  | _ => Float (round2 (foldl fadd (S754_zero false) ts))
  end.

(** A line item as the view presents it: with name, price, accent and
    first image when its slug resolves, bare otherwise. *)
Definition present_line (products : list Product) (it : Item)
  : ItemView :=
  mkItemView it
    ((fun p => mkEnrichment (p_name p) (p_price p) (p_accent p)
                 (head (p_images p)))
       <$> lookup_product (it_slug it) products).

(** What [get_cart] answers for a cart holding [items]. *)
Definition view_outcome (cart_id : string) (products : list Product)
    (items : list Item) : Outcome CartView :=
  match amounts products items with
  | Some ts =>
      Return (mkCartView cart_id (present_line products <$> items)
                (subtotal_of ts))
  | None => OverflowError
  end.

(** C1 as the specification words it, for calls on one cart with one slug
    that resolve to one size, on a cart without a line item for the pair:
    the cart ends with exactly one line item for the pair, whose quantity
    is the sum of the effective quantities. *)
Definition add_sequence_claim (s : Store) (cart_id slug size : string)
    (payloads : list QuickAdd) : Prop :=
  forall p,
    lookup_product slug (db_product s) = Some p ->
    Forall (resolves_to slug size (p_sizes p)) payloads ->
    payloads <> [] ->
    Forall (fun it => ~ same_line slug size it) (items_of s cart_id) ->
    filter (same_line slug size)
      (items_of (run (AddToCart cart_id <$> payloads) s) cart_id)
    = [mkItem slug (Some size) (Some (effective_total payloads))].



(** The documents [upsert_otp] leaves in the collection. *)
Fixpoint upserted (phone : string) (doc : OtpDoc) (docs : list OtpDoc)
  : list OtpDoc :=
  match docs with
  | [] => [doc]
  | d :: docs' =>
      if decide (otp_phone d = phone) then doc :: docs'
      else d :: upserted phone doc docs'
  end.

(** The store after a session for [phone] was issued. *)
Definition issued (s : Store) (phone : string) : Store :=
  mkStore (db_product s) (db_otp s)
    (db_session s ++ [mkSessionDoc (next_oid s) phone]) (db_cart s)
    (N.succ (next_oid s)).

(** The store after a code was requested for the trimmed [phone]. *)
Definition pending (s : Store) (phone : string) : Store :=
  mkStore (db_product s)
    (upserted phone (mkOtpDoc phone "123456") (db_otp s)) (db_session s)
    (db_cart s) (next_oid s).

(** At most one pending code per phone. *)
Definition otp_unique (docs : list OtpDoc) : Prop :=
  NoDup (otp_phone <$> docs).

(** Every pending record is stored under a trimmed phone. *)
Definition otp_stripped (docs : list OtpDoc) : Prop :=
  Forall (fun d => strip (otp_phone d) = otp_phone d) docs.

(** Every issued session identity came out of the generator already. *)
Definition sessions_below (s : Store) : Prop :=
  Forall (fun d => (sess_id d < next_oid s)%N) (db_session s).

(** The invariants the statements on [verify_otp] rely on. *)
Definition otp_ok (s : Store) : Prop :=
  otp_unique (db_otp s) /\ otp_stripped (db_otp s) /\ sessions_below s.

Definition unauthorized : HTTPException :=
  mkHTTPException 401 "Invalid code".

(* ===================================================================== *)
(** ** The catalog handlers and the seeding routine                        *)
(* ===================================================================== *)

(** [list(db["product"].find(q).limit(60))], where [q] filters on the
    category when [category] is truthy and is empty otherwise. *)
Definition find_products (category : option string)
    (products : list Product) : list Product :=
  take 60
    match nonempty category with
    | Some c => filter (fun p => p_category p = c) products
    | None => products
    end.

(** [list_products]; the documents are returned as the store holds them
    (the rendering of their [_id] as a string is not part of a
    [Product]). *)
Definition list_products (category : option string)
  : Handler (list Product) :=
  fun s => (Return (find_products category (db_product s)), s).

Definition get_product (slug : string) : Handler Product :=
  p ← find_product slug;
  match p with
  | None => raise (mkHTTPException 404 "Not found")
  | Some p => mret p
  end.

Record SeedResponse := mkSeedResponse {
  seed_ok : bool;
  seed_message : string;
  seed_count : Z;
}.

(** [db["product"].count_documents({})] *)
Definition count_products : Handler Z :=
  fun s => (Return (Z.of_nat (length (db_product s))), s).

(** Modelled from the spec: [create_document] of the [database] module is
    not among the sources; it stores the given product as one more document
    of the [product] collection. *)
Definition create_product (prod : Product) : Handler unit :=
  fun s =>
    (Return tt,
     mkStore (db_product s ++ [prod]) (db_otp s) (db_session s) (db_cart s)
       (next_oid s)).

(** [seed_products], with [seed] the list [sample] of the source. *)
Definition seed_products : Handler SeedResponse :=
  count ← count_products;
  if decide (0 < count) then
    mret (mkSeedResponse true "Products already seeded" count)
  else
    for_each (fun _ prod => create_product prod) tt seed;;
    seeded ← count_products;
    mret (mkSeedResponse true "Seeded" seeded).

#[export] Instance OtpDoc_eq_dec : EqDecision OtpDoc.
Proof. solve_decision. Defined.

#[export] Instance SessionDoc_eq_dec : EqDecision SessionDoc.
Proof. solve_decision. Defined.

(** Every character of [s] is whitespace. *)
Fixpoint all_space (s : string) : bool :=
  match s with
  | EmptyString => true
  | String c s' => isspace c && all_space s'
  end.

(** The cart a request reads or writes, if any. *)
Definition cart_target (r : Request) : option string :=
  match r with
  | RequestOtp _ | VerifyOtp _ => None
  | GetCart cart_id | AddToCart cart_id _ | UpdateCart cart_id _ =>
      Some cart_id
  end.

(** Every pending record carries the demo code under a trimmed, non-empty
    phone. *)
Definition otp_demo (docs : list OtpDoc) : Prop :=
  Forall
    (fun d =>
       otp_code d = "123456" /\ otp_phone d <> ""
       /\ strip (otp_phone d) = otp_phone d)
    docs.

(** Every session belongs to a phone that holds a pending record. *)
Definition sessions_verified (s : Store) : Prop :=
  Forall (fun d => sess_phone d ∈ otp_phone <$> db_otp s) (db_session s).

(** What the login handlers keep true of the store. *)
Definition login_ok (s : Store) : Prop :=
  otp_unique (db_otp s) /\ otp_demo (db_otp s) /\ sessions_below s
  /\ NoDup (sess_id <$> db_session s) /\ sessions_verified s.

(** Two phones request a code, one of them twice and with stray blanks, and
    one of them logs in twice. *)
Definition login_requests : list Request :=
  [RequestOtp (mkOTPRequest "+15551230000");
   RequestOtp (mkOTPRequest "  +15551230000 ");
   RequestOtp (mkOTPRequest "+15559870000");
   VerifyOtp (mkOTPVerify "+15551230000" "123456");
   VerifyOtp (mkOTPVerify "+15551230000" "000000");
   VerifyOtp (mkOTPVerify "+15551230000" "123456")].

(* ===================================================================== *)
(** ** Trimming                                                            *)
(* ===================================================================== *)

Lemma lstrip_leading s : leading_space (lstrip s) = false.
Proof.
  induction s as [|c s IH]; simpl; [done|].
  destruct (isspace c) eqn:Hc; [done|]. by simpl.
Qed.

Lemma lstrip_id s : leading_space s = false -> lstrip s = s.
Proof. destruct s as [|c s]; simpl; [done|]. by intros ->. Qed.

Lemma rstrip_trailing s : trailing_space (rstrip s) = false.
Proof.
  induction s as [|c s IH]; simpl; [done|].
  destruct (rstrip s) as [|c' r] eqn:Hr.
  - destruct (isspace c) eqn:Hc; simpl; done.
  - exact IH.
Qed.

Lemma rstrip_id s : trailing_space s = false -> rstrip s = s.
Proof.
  induction s as [|c s IH]; [done|].
  destruct s as [|c' s'].
  - simpl. by intros ->.
  - intros Ht. change (trailing_space (String c' s') = false) in Ht.
    change (rstrip (String c (String c' s')))
      with (match rstrip (String c' s') with
            | EmptyString =>
                if isspace c then EmptyString else String c EmptyString
            | r => String c r
            end).
    by rewrite (IH Ht).
Qed.

Lemma rstrip_leading s :
  leading_space s = false -> leading_space (rstrip s) = false.
Proof.
  destruct s as [|c s]; simpl; [done|]. intros Hc.
  destruct (rstrip s); [rewrite Hc|]; done.
Qed.

Lemma strip_leading s : leading_space (strip s) = false.
Proof. unfold strip. apply rstrip_leading, lstrip_leading. Qed.

Lemma strip_trailing s : trailing_space (strip s) = false.
Proof. unfold strip. apply rstrip_trailing. Qed.

Lemma strip_idemp s : strip (strip s) = strip s.
Proof.
  unfold strip at 1.
  rewrite (lstrip_id _ (strip_leading s)).
  apply rstrip_id, strip_trailing.
Qed.

(** A string with whitespace at either end is changed by [strip]. *)
Lemma strip_outer_space s :
  leading_space s || trailing_space s = true -> strip s <> s.
Proof.
  intros Hs Heq.
  pose proof (strip_leading s) as Hl. pose proof (strip_trailing s) as Ht.
  rewrite Heq in Hl, Ht. by rewrite Hl, Ht in Hs.
Qed.

(* ===================================================================== *)
(** ** The [otp] collection                                                *)
(* ===================================================================== *)

Lemma lookup_otp_Some phone docs d :
  lookup_otp phone docs = Some d -> d ∈ docs /\ otp_phone d = phone.
Proof.
  unfold lookup_otp. intros Hd.
  destruct (list_find _ docs) as [[i d']|] eqn:Hf; simplify_eq/=.
  apply list_find_Some in Hf as (Hi & Hp & _).
  split; [by eapply list_elem_of_lookup_2|done].
Qed.

Lemma lookup_otp_None phone docs :
  lookup_otp phone docs = None <-> forall d, d ∈ docs -> otp_phone d <> phone.
Proof.
  unfold lookup_otp. rewrite fmap_None, list_find_None, Forall_forall.
  done.
Qed.

Lemma lookup_otp_cons phone d docs :
  lookup_otp phone (d :: docs)
  = if decide (otp_phone d = phone) then Some d else lookup_otp phone docs.
Proof.
  unfold lookup_otp. simpl. case_decide; [done|].
  by destruct (list_find _ docs) as [[??]|].
Qed.

(** With one record per phone, the lookup finds any record one names. *)
Lemma lookup_otp_unique phone docs d :
  otp_unique docs -> d ∈ docs -> otp_phone d = phone ->
  lookup_otp phone docs = Some d.
Proof.
  unfold otp_unique. induction docs as [|d0 docs IH]; intros Hnd Hin Hp.
  - by apply elem_of_nil in Hin.
  - rewrite lookup_otp_cons. rewrite fmap_cons in Hnd.
    apply NoDup_cons in Hnd as [Hnotin Hnd].
    apply elem_of_cons in Hin as [->|Hin].
    + by rewrite decide_True.
    + rewrite decide_False; [by apply IH|].
      intros Heq. apply Hnotin. rewrite Heq, <- Hp.
      by apply list_elem_of_fmap_2.
Qed.

Lemma upsert_otp_upserted phone doc (s : Store) :
  upsert_otp phone doc s
  = (Return tt,
     mkStore (db_product s) (upserted phone doc (db_otp s)) (db_session s)
       (db_cart s) (next_oid s)).
Proof.
  unfold upsert_otp. do 2 f_equal.
  induction (db_otp s) as [|d docs IH]; simpl; [done|].
  case_decide; [done|].
  destruct (list_find _ docs) as [[i d']|]; simpl in *; by rewrite IH.
Qed.

Lemma upserted_lookup phone code docs :
  lookup_otp phone (upserted phone (mkOtpDoc phone code) docs)
  = Some (mkOtpDoc phone code).
Proof.
  induction docs as [|d docs IH]; simpl.
  - rewrite lookup_otp_cons. by rewrite decide_True.
  - case_decide; rewrite lookup_otp_cons.
    + by rewrite decide_True.
    + by rewrite decide_False.
Qed.

Lemma upserted_lookup_ne phone phone' code docs :
  phone' <> phone ->
  lookup_otp phone' (upserted phone (mkOtpDoc phone code) docs)
  = lookup_otp phone' docs.
Proof.
  intros Hne. induction docs as [|d docs IH]; simpl.
  - rewrite lookup_otp_cons. by rewrite decide_False.
  - case_decide as Hd; rewrite !lookup_otp_cons; cbn [otp_phone].
    + by rewrite !decide_False by congruence.
    + by rewrite IH.
Qed.

Lemma upserted_phones phone code docs :
  otp_phone <$> upserted phone (mkOtpDoc phone code) docs
  = if decide (phone ∈ otp_phone <$> docs) then otp_phone <$> docs
    else (otp_phone <$> docs) ++ [phone].
Proof.
  induction docs as [|d docs IH]; cbn [upserted].
  - rewrite decide_False by apply not_elem_of_nil. done.
  - rewrite (fmap_cons _ d docs).
    destruct (decide (otp_phone d = phone)) as [Hd|Hd].
    + rewrite decide_True by (rewrite Hd; apply elem_of_cons; by left).
      rewrite fmap_cons. cbn [otp_phone]. by rewrite Hd.
    + rewrite fmap_cons, IH.
      destruct (decide (phone ∈ otp_phone <$> docs)) as [Hin|Hin].
      * rewrite decide_True; [done|]. apply elem_of_cons. by right.
      * rewrite decide_False; [done|]. rewrite elem_of_cons.
        intros [Heq|Hin']; [by apply Hd|by apply Hin].
Qed.

Lemma upserted_unique phone code docs :
  otp_unique docs -> otp_unique (upserted phone (mkOtpDoc phone code) docs).
Proof.
  unfold otp_unique. intros Hnd. rewrite upserted_phones.
  case_decide as Hin; [done|].
  apply NoDup_app. split_and!; [done| |apply NoDup_singleton].
  intros x Hx ->%list_elem_of_singleton. done.
Qed.

Lemma upserted_stripped phone code docs :
  strip phone = phone -> otp_stripped docs ->
  otp_stripped (upserted phone (mkOtpDoc phone code) docs).
Proof.
  unfold otp_stripped. intros Hp. induction 1 as [|d docs Hd Hds IH]; simpl.
  - by repeat constructor.
  - case_decide; constructor; done.
Qed.

(* ===================================================================== *)
(** ** The OTP handlers                                                    *)
(* ===================================================================== *)

Section OtpFacts.
Implicit Types s : Store.

Lemma request_otp_eq payload s :
  request_otp payload s
  = if decide (strip (req_phone payload) = "") then
      (Raise (mkHTTPException 400 "Phone required"), s)
    else
      (Return (mkOtpResponse true "OTP sent (demo)" "123456"),
       pending s (strip (req_phone payload))).
Proof.
  unfold request_otp. case_decide; [done|].
  unfold mbind, handler_bind. by rewrite upsert_otp_upserted.
Qed.

Lemma verify_otp_eq payload s :
  verify_otp payload s
  = match lookup_otp (ver_phone payload) (db_otp s) with
    | None => (Raise unauthorized, s)
    | Some doc =>
        if decide (ver_code payload ≠ otp_code doc) then
          (Raise unauthorized, s)
        else (Return (next_oid s), issued s (ver_phone payload))
    end.
Proof.
  unfold verify_otp, mbind, handler_bind, find_otp. simpl.
  destruct (lookup_otp _ _) as [doc|]; [|done].
  case_decide; done.
Qed.

Lemma request_otp_stripped payload s :
  otp_stripped (db_otp s) -> otp_stripped (db_otp (request_otp payload s).2).
Proof.
  intros Hs. rewrite request_otp_eq. case_decide; [done|].
  apply upserted_stripped; [apply strip_idemp|done].
Qed.

Lemma request_otp_unique payload s :
  otp_unique (db_otp s) -> otp_unique (db_otp (request_otp payload s).2).
Proof.
  intros Hs. rewrite request_otp_eq. case_decide; [done|].
  by apply upserted_unique.
Qed.

Lemma verify_otp_sessions_below payload s :
  sessions_below s -> sessions_below (verify_otp payload s).2.
Proof.
  intros Hs. rewrite verify_otp_eq.
  destruct (lookup_otp _ _) as [doc|]; [|done].
  case_decide; [done|]. unfold sessions_below, issued. simpl.
  apply Forall_app. split.
  - eapply Forall_impl; [exact Hs|]. simpl. intros d Hd. lia.
  - repeat constructor. simpl. lia.
Qed.
End OtpFacts.

(** C8. [verify_otp] raises 401 exactly when no pending record exists for
    the phone or the supplied code differs from the stored one, and then
    leaves the store as it was; otherwise it returns the identity the
    generator hands out, which no earlier session carries, and the store
    differs only by one session record appended for that identity and
    phone: the [otp] collection is untouched. Stated over stores with one
    pending record per phone (so that the stored code is determined) and
    whose session identities all came from the generator. *)
Theorem verify_otp_unauthorized_iff (s : Store) (payload : OTPVerify) :
  otp_unique (db_otp s) -> sessions_below s ->
  ((verify_otp payload s).1 = Raise unauthorized <->
     (forall d, d ∈ db_otp s -> otp_phone d <> ver_phone payload)
     \/ (exists d, d ∈ db_otp s /\ otp_phone d = ver_phone payload
                   /\ ver_code payload <> otp_code d))
  /\ ((verify_otp payload s).1 = Raise unauthorized ->
      (verify_otp payload s).2 = s)
  /\ ((verify_otp payload s).1 <> Raise unauthorized ->
      verify_otp payload s
      = (Return (next_oid s), issued s (ver_phone payload))
      /\ db_session (verify_otp payload s).2
         = db_session s ++ [mkSessionDoc (next_oid s) (ver_phone payload)]
      /\ db_otp (verify_otp payload s).2 = db_otp s
      /\ next_oid s ∉ sess_id <$> db_session s).
Proof.
  intros Huniq Hbelow. rewrite verify_otp_eq.
  destruct (lookup_otp (ver_phone payload) (db_otp s)) as [doc|] eqn:Hdoc.
  - apply lookup_otp_Some in Hdoc as Hin. destruct Hin as [Hin Hphone].
    destruct (decide (ver_code payload ≠ otp_code doc)) as [Hne|Heq]; simpl.
    + split_and!; [|done|by intros []].
      split; [|done]. intros _. right. by exists doc.
    + split_and!.
      * split; [done|]. intros [Hnone|(d & Hd & Hp & Hc)].
        { by destruct (Hnone doc Hin). }
        { pose proof (lookup_otp_unique _ _ _ Huniq Hd Hp) as Hd'.
          rewrite Hdoc in Hd'. simplify_eq. by destruct Heq. }
      * done.
      * intros _. split_and!; [done..|].
        intros (d & Hid & Hd)%list_elem_of_fmap.
        unfold sessions_below in Hbelow.
        rewrite Forall_forall in Hbelow. specialize (Hbelow d Hd). lia.
  - simpl. split_and!; [|done|by intros []].
    split; [|done]. intros _. left. by apply lookup_otp_None.
Qed.

(** C10. [request_otp] files the record under the trimmed phone while
    [verify_otp] looks the phone up as supplied. In a store whose pending
    records are all filed under trimmed phones, requesting a code for a
    phone with leading or trailing whitespace and then verifying that very
    string with the stored code raises 401; a verification that does not
    raise was made with a phone that is its own trimmed form and equals the
    phone of a stored record character for character; and the trimmed form
    of the requested phone, when not empty, does verify. *)
Theorem verify_otp_untrimmed_phone (s : Store) (phone : string) :
  otp_stripped (db_otp s) ->
  leading_space phone || trailing_space phone = true ->
  let s1 := (request_otp (mkOTPRequest phone) s).2 in
  verify_otp (mkOTPVerify phone "123456") s1 = (Raise unauthorized, s1)
  /\ (forall phone' code,
        (verify_otp (mkOTPVerify phone' code) s1).1 <> Raise unauthorized ->
        strip phone' = phone'
        /\ exists d, d ∈ db_otp s1 /\ otp_phone d = phone'
                     /\ otp_code d = code)
  /\ (strip phone <> "" ->
      (verify_otp (mkOTPVerify (strip phone) "123456") s1).1
      = Return (next_oid s1)).
Proof.
  intros Hstripped Hspace s1.
  assert (Hs1 : otp_stripped (db_otp s1)) by by apply request_otp_stripped.
  apply strip_outer_space in Hspace.
  split_and!.
  - rewrite verify_otp_eq. simpl.
    destruct (lookup_otp phone (db_otp s1)) as [doc|] eqn:Hdoc; [|done].
    apply lookup_otp_Some in Hdoc as [Hin Hp].
    unfold otp_stripped in Hs1. rewrite Forall_forall in Hs1.
    specialize (Hs1 doc Hin). rewrite Hp in Hs1. done.
  - intros phone' code. rewrite verify_otp_eq. simpl.
    destruct (lookup_otp phone' (db_otp s1)) as [doc|] eqn:Hdoc; [|done].
    case_decide as Hcode; [done|]. intros _.
    apply lookup_otp_Some in Hdoc as [Hin Hp].
    unfold otp_stripped in Hs1. rewrite Forall_forall in Hs1.
    specialize (Hs1 doc Hin). rewrite Hp in Hs1. split; [done|].
    exists doc. split_and!; [done..|].
    simpl in Hcode.
    destruct (decide (otp_code doc = code)) as [|Hc]; [done|].
    destruct Hcode. congruence.
  - intros Hne. rewrite verify_otp_eq. subst s1.
    rewrite request_otp_eq. simpl. rewrite decide_False by done. simpl.
    rewrite upserted_lookup. cbn [ver_code otp_code].
    by rewrite decide_False by auto.
Qed.

(* ===================================================================== *)
(** ** The cart handlers, one equation each                                *)
(* ===================================================================== *)

Lemma merge_item_nil slug size qty :
  merge_item slug size qty [] = [mkItem slug (Some size) (Some (Z.max 1 qty))].
Proof. done. Qed.

Lemma merge_item_cons slug size qty it items :
  merge_item slug size qty (it :: items)
  = if decide (same_line slug size it) then
      mkItem (it_slug it) (it_size it) (Some (get_qty it + Z.max 1 qty))
      :: items
    else it :: merge_item slug size qty items.
Proof.
  unfold merge_item. cbn [list_find].
  destruct (decide (same_line slug size it)); [done|].
  by destruct (list_find _ items) as [[i e]|].
Qed.

(** The loop of [update_cart] builds the sequence the specification
    describes. *)
Lemma update_loop payload items acc :
  foldl (update_step payload) acc items
  = acc ++ updateItem_items payload items.
Proof.
  unfold updateItem_items.
  revert acc. induction items as [|it items IH]; intros acc; simpl.
  - by rewrite app_nil_r.
  - rewrite IH. unfold update_step, updateItem_line, drops.
    destruct (decide (same_line _ _ it)) as [Hm|Hm]; simpl.
    + destruct (ui_qty payload) as [q|], (ui_remove payload) as [[]|];
        simpl; rewrite ?app_nil_r; try done;
        try (destruct (decide (q <= 0)) as [Hq|Hq];
             [rewrite (proj2 (Z.leb_le q 0) Hq)
             |rewrite (proj2 (Z.leb_gt q 0)) by lia];
             simpl; by rewrite <- ?app_assoc).
      all: by rewrite <- app_assoc.
    + by rewrite <- app_assoc.
Qed.

(** [round_half_even n d] is an integer nearest to [n / d]. *)
Lemma round_half_even_nearest n d :
  0 < d -> 2 * Z.abs (n - round_half_even n d * d) <= d.
Proof.
  intros Hd. unfold round_half_even.
  pose proof (Z.div_mod n d ltac:(lia)) as Hn.
  pose proof (Z.mod_pos_bound n d Hd) as Hr.
  destruct (Z.compare_spec (2 * (n mod d)) d); [destruct (Z.even _)|..]; nia.
Qed.

(** Between two nearest integers it takes the even one. *)
Lemma round_half_even_tie n d :
  0 < d -> 2 * Z.abs (n - round_half_even n d * d) = d ->
  Z.even (round_half_even n d) = true.
Proof.
  intros Hd. unfold round_half_even.
  pose proof (Z.div_mod n d ltac:(lia)) as Hn.
  pose proof (Z.mod_pos_bound n d Hd) as Hr.
  destruct (Z.compare_spec (2 * (n mod d)) d) as [Heq|Hlt|Hgt].
  - intros _. destruct (Z.even (n / d)) eqn:He; [done|].
    rewrite Z.add_1_r, Z.even_succ, <- Z.negb_even. by rewrite He.
  - intros Htie. nia.
  - intros Htie. nia.
Qed.

(** [hundredths m e] is the number of hundredths nearest to the exact
    value [m * 2 ^ e]: off by at most half a hundredth, and exact when the
    value is an integer. *)
Lemma hundredths_nearest m e :
  match e with
  | Zneg k =>
      2 * Z.abs (Z.pos m * 100 - hundredths m e * 2 ^ Z.pos k) <= 2 ^ Z.pos k
  | _ => hundredths m e = Z.pos m * 100 * 2 ^ e
  end.
Proof.
  destruct e as [|k|k]; [done|done|]. unfold hundredths.
  apply round_half_even_nearest. by apply Z.pow_pos_nonneg.
Qed.

(** What fits 8 bytes converts to a float. *)
Lemma float_of_int_int64 z : int64 z -> is_Some (float_of_int z).
Proof.
  intros [Hlo Hhi]. unfold float_of_int. rewrite decide_True; [by eexists|].
  assert (2 ^ 63 < int_too_large) by (by vm_compute). lia.
Qed.

Lemma amounts_cons products it items :
  amounts products (it :: items)
  = match lookup_product (it_slug it) products with
    | Some p =>
        q ← float_of_int (quantity it);
        ts ← amounts products items;
        Some (fmul q (p_price p) :: ts)
    | None => amounts products items
    end.
Proof.
  unfold amounts, resolvable. rewrite filter_cons.
  destruct (lookup_product (it_slug it) products) as [p|] eqn:Hp.
  - rewrite decide_True by by eexists. cbn [mapM].
    assert (amount products it
            = q ← float_of_int (quantity it); Some (fmul q (p_price p)))
      as -> by (unfold amount; by rewrite Hp).
    destruct (float_of_int (quantity it)) as [q|]; [|done].
    cbn [mbind option_bind]. by destruct (mapM _ _).
  - rewrite decide_False; [done|]. by intros [? ?].
Qed.

(** A cart the store can hold has its amounts: no quantity of it is too
    large for a float. *)
Lemma amounts_encodable products items :
  encodable items -> is_Some (amounts products items).
Proof.
  induction 1 as [|it items Hit Hits IH]; [by eexists|].
  rewrite amounts_cons. destruct (lookup_product _ _) as [p|]; [|done].
  assert (is_Some (float_of_int (quantity it))) as [q ->].
  { apply float_of_int_int64. unfold quantity, item_encodable in *.
    destruct (it_qty it); [done|]. unfold int64. lia. }
  destruct IH as [ts ->]. by eexists.
Qed.

Lemma running_snoc ts t :
  running (ts ++ [t]) = Float (foldl fadd (S754_zero false) (ts ++ [t])).
Proof. by destruct ts. Qed.

Section CartFacts.
Implicit Types s : Store.

Lemma add_float_running ts t s :
  add_float (running ts) t s
  = (Return (foldl fadd (S754_zero false) (ts ++ [t])), s).
Proof.
  rewrite foldl_app. destruct ts as [|t0 ts]; [done|].
  unfold running. done.
Qed.

Lemma enrich_loop s items views ts0 :
  for_each enrich_step (views, running ts0) items s
  = match amounts (db_product s) items with
    | Some ts =>
        (Return (views ++ (present_line (db_product s) <$> items),
                 running (ts0 ++ ts)),
         s)
    | None => (OverflowError, s)
    end.
Proof.
  revert views ts0. induction items as [|it items IH]; intros views ts0.
  - simpl. by rewrite !app_nil_r.
  - cbn [for_each]. unfold mbind at 1, handler_bind at 1.
    unfold enrich_step at 1. unfold mbind at 1, handler_bind at 1.
    unfold find_product. rewrite fmap_cons, amounts_cons.
    unfold present_line at 1.
    destruct (lookup_product (it_slug it) (db_product s)) as [p|] eqn:Hp.
    + change (get_qty it) with (quantity it).
      unfold mbind at 1, handler_bind at 1, or_overflow at 1.
      destruct (float_of_int (quantity it)) as [q|]; [|done].
      unfold mbind at 1, handler_bind at 1. cbn [fst snd].
      rewrite add_float_running.
      unfold mret at 1, handler_ret at 1. rewrite <- running_snoc.
      rewrite IH. cbn [mbind option_bind].
      destruct (amounts (db_product s) items) as [ts|]; [|done].
      cbn [mbind option_bind fmap option_fmap option_map].
      by rewrite <- !app_assoc.
    + unfold mret at 1, handler_ret at 1. cbn [fst snd fmap option_fmap option_map].
      rewrite IH. destruct (amounts (db_product s) items) as [ts|]; [|done].
      by rewrite <- app_assoc.
Qed.

Lemma get_cart_eq cart_id s :
  get_cart cart_id s
  = match db_cart s !! cart_id with
    | Some c => (view_outcome cart_id (db_product s) (cart_items c), s)
    | None =>
        (Return (mkCartView cart_id [] (Int 0)),
         put_cart s cart_id (mkCartDoc [] (Some 0)))
    end.
Proof.
  unfold get_cart, mbind, handler_bind, find_cart.
  destruct (db_cart s !! cart_id) as [c|].
  - unfold mret at 1, handler_ret at 1.
    change (Int 0) with (running []). rewrite enrich_loop.
    unfold view_outcome.
    destruct (amounts (db_product s) (cart_items c)) as [ts|]; [|done].
    unfold mret, handler_ret. cbn [fst snd app]. by destruct ts.
  - unfold insert_cart, mret, handler_ret. done.
Qed.

Lemma add_to_cart_eq cart_id payload s :
  add_to_cart cart_id payload s
  = match lookup_product (qa_slug payload) (db_product s) with
    | None => (Raise (mkHTTPException 404 "Product not found"), s)
    | Some p =>
        match resolve_size (p_sizes p) (qa_size payload) with
        | None => (Raise (mkHTTPException 400 "No available size"), s)
        | Some size =>
            if decide
                 (encodable
                    (merge_item (qa_slug payload) size (qa_qty payload)
                       (items_of s cart_id)))
            then
              (Return true,
               put_cart s cart_id
                 (mkCartDoc
                    (merge_item (qa_slug payload) size (qa_qty payload)
                       (items_of s cart_id))
                    (db_cart s !! cart_id ≫= cart_subtotal)))
            else (OverflowError, ensure_cart s cart_id)
        end
    end.
Proof.
  unfold add_to_cart, mbind at 1, handler_bind at 1, find_product.
  destruct (lookup_product _ _) as [p|]; [|done].
  destruct (resolve_size _ _) as [size|]; [|done].
  unfold mbind, handler_bind, find_cart, items_of, set_cart_items, put_cart,
    ensure_cart.
  destruct (db_cart s !! cart_id) as [c|] eqn:Hc;
    unfold mret, handler_ret, insert_cart; cbn [cart_items db_cart].
  - case_decide; [|done]. cbn. do 2 f_equal. by erewrite alter_alt_Some.
  - case_decide; [|done]. cbn. do 2 f_equal. by rewrite alter_insert_eq.
Qed.

Lemma update_cart_eq cart_id payload s :
  update_cart cart_id payload s
  = match db_cart s !! cart_id with
    | None => (Raise (mkHTTPException 404 "Cart not found"), s)
    | Some c =>
        if decide (encodable (updateItem_items payload (cart_items c))) then
          (Return true,
           put_cart s cart_id
             (mkCartDoc (updateItem_items payload (cart_items c))
                (cart_subtotal c)))
        else (OverflowError, s)
    end.
Proof.
  unfold update_cart, mbind, handler_bind, find_cart.
  destruct (db_cart s !! cart_id) as [c|] eqn:Hc; [|done].
  unfold set_cart_items, put_cart, mret, handler_ret.
  rewrite update_loop. cbn [app]. case_decide; [|done].
  do 2 f_equal. by erewrite alter_alt_Some.
Qed.
End CartFacts.

(* ===================================================================== *)
(** ** The enrichment view                                                 *)
(* ===================================================================== *)

Lemma omap_cons {A B} (f : A -> option B) (x : A) (l : list A) :
  omap f (x :: l)
  = match f x with
    | Some y => y :: omap f l
    | None => omap f l
    end.
Proof. done. Qed.

Section ViewFacts.
Implicit Types s : Store.

Lemma items_of_put_cart s cart_id c :
  items_of (put_cart s cart_id c) cart_id = cart_items c.
Proof. unfold items_of, put_cart. simpl. by rewrite lookup_insert_eq. Qed.

Lemma items_of_put_cart_ne s cart_id cart_id' c :
  cart_id <> cart_id' ->
  items_of (put_cart s cart_id c) cart_id' = items_of s cart_id'.
Proof.
  intros Hne. unfold items_of, put_cart. simpl.
  by rewrite lookup_insert_ne.
Qed.

Lemma put_cart_put_cart (s : Store) cart_id c c' :
  put_cart (put_cart s cart_id c) cart_id c' = put_cart s cart_id c'.
Proof. unfold put_cart. simpl. by rewrite insert_insert_eq. Qed.

Lemma update_cart_put_cart s cart_id payload c :
  update_cart cart_id payload (put_cart s cart_id c)
  = if decide (encodable (updateItem_items payload (cart_items c))) then
      (Return true,
       put_cart s cart_id
         (mkCartDoc (updateItem_items payload (cart_items c))
            (cart_subtotal c)))
    else (OverflowError, put_cart s cart_id c).
Proof.
  rewrite update_cart_eq.
  change (db_cart (put_cart s cart_id c) !! cart_id)
    with (<[cart_id := c]> (db_cart s) !! cart_id).
  rewrite lookup_insert_eq. case_decide; [|done].
  by rewrite put_cart_put_cart.
Qed.


(** C9. For a cart already in the store, [get_cart] leaves the whole
    store as it was: the enrichment keys and the subtotal live in the
    returned view only. *)
Theorem get_cart_frame s cart_id c :
  db_cart s !! cart_id = Some c ->
  (get_cart cart_id s).2 = s
  /\ db_cart (get_cart cart_id s).2 !! cart_id = Some c.
Proof. intros Hc. rewrite get_cart_eq, Hc. done. Qed.

Lemma run_get_cart_present s cart_id n :
  is_Some (db_cart s !! cart_id) ->
  run (replicate n (GetCart cart_id)) s = s.
Proof.
  intros [c Hc]. induction n as [|n IH]; [done|].
  unfold run in *. simpl. by rewrite get_cart_eq, Hc.
Qed.

(** C6. On an identity the store does not hold, [get_cart] returns
    (rather than raises) a view with no line items, and persists one cart
    document with no line items under that identity, leaving every other
    cart alone; any number of further calls return the same view and
    leave that store as it is, so no second record appears. *)
Theorem get_cart_creates_once s cart_id :
  db_cart s !! cart_id = None ->
  let s1 := (get_cart cart_id s).2 in
  let view := mkCartView cart_id [] (Int 0) in
  (get_cart cart_id s).1 = Return view
  /\ db_cart s1 !! cart_id = Some (mkCartDoc [] (Some 0))
  /\ size (db_cart s1) = S (size (db_cart s))
  /\ (forall cart_id', cart_id' <> cart_id ->
        db_cart s1 !! cart_id' = db_cart s !! cart_id')
  /\ forall n,
       run (replicate n (GetCart cart_id)) s1 = s1
       /\ get_cart cart_id (run (replicate n (GetCart cart_id)) s1)
          = (Return view, s1).
Proof.
  intros Hnone s1 view. subst s1. rewrite get_cart_eq, Hnone.
  cbn [fst snd]. unfold put_cart at 1 2 3. cbn [db_cart].
  split_and!; [done| | | |].
  - apply lookup_insert_eq.
  - by apply map_size_insert_None.
  - intros cart_id' Hne. by apply lookup_insert_ne.
  - intros n.
    assert (Hnow : db_cart (put_cart s cart_id (mkCartDoc [] (Some 0)))
                     !! cart_id = Some (mkCartDoc [] (Some 0)))
      by apply lookup_insert_eq.
    rewrite run_get_cart_present by by eexists.
    split; [done|]. by rewrite get_cart_eq, Hnow.
Qed.
End ViewFacts.

(* ===================================================================== *)
(** ** Updating and removing line items                                    *)
(* ===================================================================== *)

Lemma updateItem_items_cons payload it items :
  updateItem_items payload (it :: items)
  = match updateItem_line (ui_slug payload) (ui_size payload)
            (ui_qty payload) (default false (ui_remove payload)) it with
    | Some it' => it' :: updateItem_items payload items
    | None => updateItem_items payload items
    end.
Proof. done. Qed.

Lemma updateItem_line_other slug size qty remove it :
  ~ same_line slug size it -> updateItem_line slug size qty remove it = Some it.
Proof. intros Hn. unfold updateItem_line. by rewrite decide_False. Qed.

(** A line that survives an update keeps its slug and size. *)
Lemma updateItem_line_key slug size qty remove it it' :
  updateItem_line slug size qty remove it = Some it' ->
  line_key it' = line_key it.
Proof.
  unfold updateItem_line. intros Hu.
  repeat (case_decide || case_match); by simplify_eq.
Qed.

Lemma updateItem_line_same slug size qty remove it it' :
  updateItem_line slug size qty remove it = Some it' ->
  same_line slug size it' <-> same_line slug size it.
Proof.
  intros Hk%updateItem_line_key. unfold same_line.
  unfold line_key in Hk. injection Hk as -> ->. done.
Qed.




Lemma updateItem_items_remove_idemp payload items :
  ui_remove payload = Some true ->
  updateItem_items payload (updateItem_items payload items)
  = updateItem_items payload items.
Proof.
  intros Hr. induction items as [|it items IH]; [done|].
  rewrite updateItem_items_cons.
  destruct (updateItem_line _ _ _ _ it) as [it'|] eqn:Hu; [|done].
  rewrite updateItem_items_cons.
  assert (it' = it /\ ~ same_line (ui_slug payload) (ui_size payload) it)
    as [-> Hn].
  { unfold updateItem_line in Hu. rewrite Hr in Hu. simpl in Hu.
    case_decide; [|by simplify_eq]. by destruct (ui_qty payload). }
  rewrite updateItem_line_other by done. by f_equal.
Qed.


Section UpdateFacts.
Implicit Types s : Store.


(** C7. Removing a line item twice leaves the same store, hence the same
    item sequence, as removing it once. *)
Theorem update_cart_remove_idempotent s cart_id slug size qty :
  let payload := mkUpdateItem slug size qty (Some true) in
  let s1 := (update_cart cart_id payload s).2 in
  (update_cart cart_id payload s1).2 = s1
  /\ items_of (update_cart cart_id payload s1).2 cart_id
     = items_of s1 cart_id.
Proof.
  intros payload s1.
  assert (Hs : (update_cart cart_id payload s1).2 = s1); [|by rewrite Hs].
  subst s1. rewrite (update_cart_eq cart_id payload s).
  destruct (db_cart s !! cart_id) as [c|] eqn:Hc; cbn [snd].
  - destruct (decide (encodable (updateItem_items payload (cart_items c))))
      as [Henc|Henc]; cbn [snd].
    + rewrite update_cart_put_cart. cbn [cart_items cart_subtotal].
      rewrite updateItem_items_remove_idemp by done.
      by rewrite decide_True by done.
    + by rewrite update_cart_eq, Hc, decide_False.
  - by rewrite update_cart_eq, Hc.
Qed.
End UpdateFacts.


(* ===================================================================== *)
(** ** Adding line items                                                   *)
(* ===================================================================== *)

(** Without a line for the pair, the merge appends one. *)
Lemma merge_item_append slug size qty items :
  Forall (fun it => ~ same_line slug size it) items ->
  merge_item slug size qty items
  = items ++ [mkItem slug (Some size) (Some (Z.max 1 qty))].
Proof.
  induction 1 as [|it items Hit Hits IH]; [done|].
  rewrite merge_item_cons, decide_False by done. simpl. by rewrite IH.
Qed.

(** With the line for the pair last, the merge adds to its quantity. *)
Lemma merge_item_increment slug size qty total items :
  Forall (fun it => ~ same_line slug size it) items ->
  merge_item slug size qty (items ++ [mkItem slug (Some size) (Some total)])
  = items ++ [mkItem slug (Some size) (Some (total + Z.max 1 qty))].
Proof.
  induction 1 as [|it items Hit Hits IH]; simpl.
  - rewrite merge_item_cons, decide_True; [done|by split].
  - rewrite merge_item_cons, decide_False by done. by rewrite IH.
Qed.

Lemma filter_same_line_none slug size items :
  Forall (fun it => ~ same_line slug size it) items ->
  filter (same_line slug size) items = [].
Proof.
  induction 1 as [|it items Hit Hits IH]; [done|].
  by rewrite filter_cons, decide_False.
Qed.

Lemma merge_item_keys slug size qty items :
  line_key <$> merge_item slug size qty items
  = if decide ((slug, Some size) ∈ line_key <$> items) then
      line_key <$> items
    else (line_key <$> items) ++ [(slug, Some size)].
Proof.
  induction items as [|it items IH].
  - rewrite merge_item_nil. rewrite decide_False by apply not_elem_of_nil.
    done.
  - rewrite merge_item_cons, (fmap_cons _ it items).
    destruct (decide (same_line slug size it)) as [[Hs Hz]|Hn].
    + rewrite fmap_cons. unfold line_key at 1 3. cbn [it_slug it_size].
      rewrite decide_True; [done|].
      apply elem_of_cons. left. unfold line_key. by rewrite Hs, Hz.
    + rewrite fmap_cons, IH.
      assert (Hk : (slug, Some size) <> line_key it).
      { intros Hk. apply Hn. unfold line_key in Hk.
        injection Hk as Hs Hz. by split. }
      destruct (decide ((slug, Some size) ∈ line_key <$> items)) as [Hin|Hin].
      * rewrite decide_True; [done|]. apply elem_of_cons. by right.
      * rewrite decide_False; [done|]. rewrite elem_of_cons.
        intros [Heq|Hin']; [by apply Hk|by apply Hin].
Qed.

Lemma merge_item_line_ok slug size qty items :
  Forall line_ok items -> Forall line_ok (merge_item slug size qty items).
Proof.
  induction 1 as [|it items Hit Hits IH].
  - rewrite merge_item_nil. repeat constructor. eexists. split; [done|lia].
  - rewrite merge_item_cons. case_decide; constructor; try done.
    destruct Hit as (q & Hq & Hpos). eexists. split; [done|].
    unfold get_qty. rewrite Hq. simpl. lia.
Qed.

Lemma merge_item_ok slug size qty items sub sub' :
  cart_ok (mkCartDoc items sub) ->
  cart_ok (mkCartDoc (merge_item slug size qty items) sub').
Proof.
  unfold cart_ok. simpl. intros [Hnd Hok].
  split; [|by apply merge_item_line_ok].
  rewrite merge_item_keys. case_decide as Hin; [done|].
  apply NoDup_app. split_and!; [done| |apply NoDup_singleton].
  intros x Hx ->%list_elem_of_singleton. done.
Qed.

Lemma updateItem_items_ok payload items sub sub' :
  cart_ok (mkCartDoc items sub) ->
  cart_ok (mkCartDoc (updateItem_items payload items) sub').
Proof.
  unfold cart_ok. simpl. intros [Hnd Hok]. split.
  - eapply sublist_NoDup; [exact Hnd|]. clear.
    induction items as [|it items IH]; [done|].
    rewrite updateItem_items_cons, (fmap_cons _ it).
    destruct (updateItem_line _ _ _ _ it) as [it'|] eqn:Hu.
    + rewrite fmap_cons, (updateItem_line_key _ _ _ _ _ _ Hu).
      by apply sublist_skip.
    + by apply sublist_cons.
  - clear Hnd. induction Hok as [|it items Hit Hits IH]; [constructor|].
    rewrite updateItem_items_cons.
    destruct (updateItem_line _ _ _ _ it) as [it'|] eqn:Hu; [|done].
    constructor; [|done]. unfold updateItem_line in Hu.
    repeat (case_decide || case_match); simplify_eq; try done.
    eexists. split; [done|]. lia.
Qed.

(** Carts that hold no line items satisfy the invariant. *)
Lemma cart_ok_empty sub : cart_ok (mkCartDoc [] sub).
Proof. split; simpl; constructor. Qed.

Section AddFacts.
Implicit Types s : Store.

Lemma carts_empty_ok s : carts_empty s -> carts_ok s.
Proof.
  unfold carts_empty, carts_ok. intros Hs.
  eapply map_Forall_impl; [exact Hs|].
  intros _ [items sub]. simpl. intros ->. apply cart_ok_empty.
Qed.

Lemma put_cart_ok s cart_id c :
  carts_ok s -> cart_ok c -> carts_ok (put_cart s cart_id c).
Proof.
  unfold carts_ok, put_cart. simpl. intros Hs Hc.
  by apply map_Forall_insert_2.
Qed.

Lemma step_carts_ok s r : carts_ok s -> carts_ok (step s r).
Proof.
  intros Hs. destruct r as [payload|payload|cart_id|cart_id payload|cart_id payload];
    simpl.
  - rewrite request_otp_eq. by case_decide.
  - rewrite verify_otp_eq. by repeat case_match.
  - rewrite get_cart_eq.
    destruct (db_cart s !! cart_id) as [c|]; [done|].
    apply put_cart_ok; [done|apply cart_ok_empty].
  - rewrite add_to_cart_eq.
    destruct (lookup_product _ _) as [p|]; [|done].
    destruct (resolve_size _ _) as [size|]; [|done].
    case_decide; cbn [snd].
    + apply put_cart_ok; [done|]. unfold items_of.
      destruct (db_cart s !! cart_id) as [[items sub]|] eqn:Hc.
      * eapply merge_item_ok. exact (Hs _ _ Hc).
      * eapply merge_item_ok. apply (cart_ok_empty None).
    + unfold ensure_cart. destruct (db_cart s !! cart_id); [done|].
      apply put_cart_ok; [done|apply cart_ok_empty].
  - rewrite update_cart_eq.
    destruct (db_cart s !! cart_id) as [[items sub]|] eqn:Hc; [|done].
    case_decide; [|done].
    apply put_cart_ok; [done|]. eapply updateItem_items_ok.
    exact (Hs _ _ Hc).
Qed.

Lemma run_carts_ok s rs : carts_ok s -> carts_ok (run rs s).
Proof.
  unfold run. revert s. induction rs as [|r rs IH]; intros s Hs; [done|].
  simpl. by apply IH, step_carts_ok.
Qed.

(** C2. Starting from a store whose carts hold no line items, after any
    sequence of requests (adding and updating line items, as well as
    viewing carts and the OTP requests) no cart holds two line items with
    the same slug and size, and every persisted line item carries a
    quantity of at least 1. *)
Theorem cart_invariant s rs cart_id c :
  carts_empty s ->
  db_cart (run rs s) !! cart_id = Some c ->
  NoDup (line_key <$> cart_items c)
  /\ Forall (fun it => exists q, it_qty it = Some q /\ 1 <= q) (cart_items c).
Proof.
  intros Hs Hc.
  exact (run_carts_ok s rs (carts_empty_ok s Hs) cart_id c Hc).
Qed.

Lemma step_product s r : db_product (step s r) = db_product s.
Proof.
  destruct r; simpl;
    rewrite ?request_otp_eq, ?verify_otp_eq, ?get_cart_eq, ?add_to_cart_eq,
      ?update_cart_eq; unfold ensure_cart;
    repeat case_match; done.
Qed.

Lemma effective_total_nonneg payloads : 0 <= effective_total payloads.
Proof. induction payloads as [|x l IH]; simpl; lia. Qed.

Lemma effective_total_app l1 l2 :
  effective_total (l1 ++ l2) = effective_total l1 + effective_total l2.
Proof. induction l1 as [|x l1 IH]; simpl; lia. Qed.

(** Further requests for a line already last in the cart add to it, and
    return, as long as the quantity stays an 8-byte int. *)
Lemma run_add_increments s cart_id slug size p items total payloads :
  lookup_product slug (db_product s) = Some p ->
  Forall (resolves_to slug size (p_sizes p)) payloads ->
  Forall (fun it => ~ same_line slug size it) items ->
  encodable items ->
  1 <= total -> total + effective_total payloads < 2 ^ 63 ->
  items_of s cart_id = items ++ [mkItem slug (Some size) (Some total)] ->
  items_of (run (AddToCart cart_id <$> payloads) s) cart_id
  = items ++ [mkItem slug (Some size)
                (Some (total + effective_total payloads))]
  /\ forall done_ next rest,
       payloads = done_ ++ next :: rest ->
       (add_to_cart cart_id next (run (AddToCart cart_id <$> done_) s)).1
       = Return true.
Proof.
  intros Hp Hres Hitems Henc. revert s total Hp.
  induction Hres as [|payload payloads [Hslug Hsize] Hres IH];
    intros s total Hp Hlo Hhi Hs.
  - simpl. rewrite Z.add_0_r. split; [done|].
    intros done_ next rest Heq. by destruct done_.
  - pose proof (effective_total_nonneg payloads) as Hnn.
    cbn [effective_total foldr] in Hhi.
    fold (effective_total payloads) in Hhi.
    assert (Hmerge : merge_item slug size (qa_qty payload) (items_of s cart_id)
                     = items ++ [mkItem slug (Some size)
                                   (Some (total + Z.max 1 (qa_qty payload)))])
      by (rewrite Hs; by apply merge_item_increment).
    assert (Hok : encodable
                    (merge_item slug size (qa_qty payload)
                       (items_of s cart_id))).
    { rewrite Hmerge. apply Forall_app. split; [done|].
      constructor; [|constructor].
      unfold item_encodable, int64. cbn [it_qty]. lia. }
    assert (Hcall : add_to_cart cart_id payload s
                    = (Return true,
                       put_cart s cart_id
                         (mkCartDoc
                            (merge_item slug size (qa_qty payload)
                               (items_of s cart_id))
                            (db_cart s !! cart_id ≫= cart_subtotal)))).
    { rewrite add_to_cart_eq, Hslug, Hp, Hsize. by rewrite decide_True. }
    destruct (IH (add_to_cart cart_id payload s).2
                (total + Z.max 1 (qa_qty payload))) as [Hfinal Hreturns].
    + by rewrite Hcall.
    + lia.
    + lia.
    + rewrite Hcall. cbn [snd]. by rewrite items_of_put_cart.
    + split.
      * unfold run in *. cbn [fmap list_fmap foldl step].
        rewrite Hfinal. cbn [effective_total foldr].
        fold (effective_total payloads). by rewrite Z.add_assoc.
      * intros [|first done_] next rest Heq; simplify_eq/=.
        { by rewrite Hcall. }
        { apply (Hreturns done_ next rest eq_refl). }
Qed.

(** C1, as the code has it. Take a product that resolves and a non-empty
    sequence of [add_to_cart] calls on one cart, all with its slug and all
    resolving to the same size, on a cart the store can hold and without a
    line item for that pair, the effective quantities summing to less than
    2 ^ 63. Every call returns; the first appends the line item and each
    later one adds to it, so that the cart ends as it began followed by
    that one line item, which is the only one for the pair and whose
    quantity is the sum over the calls of [max(1, qty)]. *)
Theorem add_to_cart_merges s cart_id slug size p payload payloads :
  lookup_product slug (db_product s) = Some p ->
  Forall (resolves_to slug size (p_sizes p)) (payload :: payloads) ->
  Forall (fun it => ~ same_line slug size it) (items_of s cart_id) ->
  encodable (items_of s cart_id) ->
  effective_total (payload :: payloads) < 2 ^ 63 ->
  let line q := mkItem slug (Some size) (Some q) in
  let s' := run (AddToCart cart_id <$> payload :: payloads) s in
  items_of (step s (AddToCart cart_id payload)) cart_id
  = items_of s cart_id ++ [line (Z.max 1 (qa_qty payload))]
  /\ items_of s' cart_id
     = items_of s cart_id ++ [line (effective_total (payload :: payloads))]
  /\ filter (same_line slug size) (items_of s' cart_id)
     = [line (effective_total (payload :: payloads))]
  /\ forall done_ next rest,
       payload :: payloads = done_ ++ next :: rest ->
       (add_to_cart cart_id next (run (AddToCart cart_id <$> done_) s)).1
       = Return true.
Proof.
  intros Hp Hres Hitems Henc Hsum line s'.
  apply Forall_cons in Hres as [[Hslug Hsize] Hres].
  pose proof (effective_total_nonneg payloads) as Hnn.
  cbn [effective_total foldr] in Hsum. fold (effective_total payloads) in Hsum.
  assert (Hok : encodable
                  (merge_item slug size (qa_qty payload) (items_of s cart_id))).
  { rewrite merge_item_append by done. apply Forall_app. split; [done|].
    constructor; [|constructor].
    unfold item_encodable, int64. cbn [it_qty]. lia. }
  assert (Hcall : add_to_cart cart_id payload s
                  = (Return true,
                     put_cart s cart_id
                       (mkCartDoc
                          (merge_item slug size (qa_qty payload)
                             (items_of s cart_id))
                          (db_cart s !! cart_id ≫= cart_subtotal)))).
  { rewrite add_to_cart_eq, Hslug, Hp, Hsize. by rewrite decide_True. }
  assert (Hfirst : items_of (step s (AddToCart cart_id payload)) cart_id
                   = items_of s cart_id ++ [line (Z.max 1 (qa_qty payload))]).
  { cbn [step]. rewrite Hcall. cbn [snd]. rewrite items_of_put_cart.
    cbn [cart_items]. by apply merge_item_append. }
  destruct (run_add_increments (step s (AddToCart cart_id payload)) cart_id
              slug size p (items_of s cart_id) (Z.max 1 (qa_qty payload))
              payloads) as [Hall Hreturns]; [|done..| | |done|].
  { by rewrite step_product. }
  { lia. }
  { lia. }
  assert (Hall' : items_of s' cart_id
                  = items_of s cart_id
                    ++ [line (effective_total (payload :: payloads))]).
  { subst s'. rewrite fmap_cons. unfold run in *. cbn [foldl].
    by rewrite Hall. }
  split_and!; [done|done| |].
  - rewrite Hall', filter_app.
    rewrite (filter_same_line_none _ _ _ Hitems).
    rewrite filter_cons, decide_True by by split. done.
  - intros [|first done_] next rest Heq; simplify_eq/=.
    + by rewrite Hcall.
    + apply (Hreturns done_ next rest eq_refl).
Qed.

(** C1, as stated, fails: one call with the quantity 2 ^ 63 on a fresh
    cart raises [OverflowError] at the write of the items, and the cart,
    created by then, is left without the line item. *)
Lemma add_sequence_claim_overflow :
  ~ add_sequence_claim seeded "c1" "crest-tee" "S"
      [mkQuickAdd "crest-tee" (Some "S") (2 ^ 63)].
Proof.
  intros Hclaim. specialize (Hclaim crest_tee eq_refl).
  assert (Hres : Forall (resolves_to "crest-tee" "S" (p_sizes crest_tee))
                   [mkQuickAdd "crest-tee" (Some "S") (2 ^ 63)])
    by (repeat constructor).
  specialize (Hclaim Hres).
  assert (Hne : [mkQuickAdd "crest-tee" (Some "S") (2 ^ 63)] <> [])
    by discriminate.
  specialize (Hclaim Hne).
  assert (Hno : Forall (fun it => ~ same_line "crest-tee" "S" it)
                  (items_of seeded "c1")) by constructor.
  specialize (Hclaim Hno). vm_compute in Hclaim. discriminate.
Qed.
End AddFacts.

(* ===================================================================== *)
(** ** The default size                                                    *)
(* ===================================================================== *)

Lemma first_in_stock_cons ss sizes :
  first_in_stock (ss :: sizes)
  = if decide (0 < ss_stock ss) then Some (ss_size ss)
    else first_in_stock sizes.
Proof.
  unfold first_in_stock. cbn [list_find]. case_decide; [done|].
  by destruct (list_find _ sizes) as [[??]|].
Qed.

(** [first_in_stock] is the label of the first declared size with positive
    stock. *)
Lemma first_in_stock_first (sizes : list SizeStock) i ss :
  sizes !! i = Some ss -> 0 < ss_stock ss ->
  (forall j ss', sizes !! j = Some ss' -> (j < i)%nat -> ss_stock ss' <= 0) ->
  first_in_stock sizes = Some (ss_size ss).
Proof.
  revert i. induction sizes as [|ss0 sizes IH]; intros i Hi Hpos Hbefore.
  - by rewrite lookup_nil in Hi.
  - rewrite first_in_stock_cons. destruct i as [|i].
    + simpl in Hi. simplify_eq. by rewrite decide_True.
    + rewrite decide_False.
      * apply (IH i); [done..|]. intros j ss' Hj Hlt.
        apply (Hbefore (S j) ss'); [done|lia].
      * specialize (Hbefore 0%nat ss0 eq_refl). lia.
Qed.

Lemma first_in_stock_none (sizes : list SizeStock) :
  Forall (fun ss => ss_stock ss <= 0) sizes -> first_in_stock sizes = None.
Proof.
  induction 1 as [|ss sizes Hss Hsizes IH]; [done|].
  rewrite first_in_stock_cons, decide_False by lia. done.
Qed.

Section DefaultSize.
Implicit Types s : Store.

(** X27. With the size omitted, [add_to_cart] does what it does when given
    the label of the first declared size whose stock is positive, as long
    as that label is not the empty string; and it raises 400, leaving the
    store as it was, when the product declares no sizes or none of them has
    positive stock. *)
Theorem add_to_cart_default_size s cart_id slug qty p :
  lookup_product slug (db_product s) = Some p ->
  let call := add_to_cart cart_id (mkQuickAdd slug None qty) s in
  (forall i ss,
      p_sizes p !! i = Some ss -> 0 < ss_stock ss ->
      (forall j ss', p_sizes p !! j = Some ss' -> (j < i)%nat ->
                     ss_stock ss' <= 0) ->
      ss_size ss <> "" ->
      call = add_to_cart cart_id (mkQuickAdd slug (Some (ss_size ss)) qty) s)
  /\ (Forall (fun ss => ss_stock ss <= 0) (p_sizes p) ->
      call = (Raise (mkHTTPException 400 "No available size"), s)).
Proof.
  intros Hp call. subst call.
  rewrite add_to_cart_eq. cbn [qa_slug qa_size qa_qty]. rewrite Hp.
  unfold resolve_size. cbn [nonempty]. split.
  - intros i ss Hi Hpos Hbefore Hlabel.
    rewrite (first_in_stock_first _ i ss Hi Hpos Hbefore).
    rewrite add_to_cart_eq. cbn [qa_slug qa_size qa_qty]. rewrite Hp.
    unfold resolve_size. by destruct (ss_size ss) as [|c label].
  - intros Hnone. by rewrite (first_in_stock_none _ Hnone).
Qed.
End DefaultSize.

(** C3. The code departs from the claim where the first size in stock
    carries the empty label: with sizes ("", 5) and ("M", 3) declared, both
    in stock, the call with the size omitted raises 400 (no available
    size) and adds nothing, the empty label being taken for a missing
    one. *)
Theorem add_to_cart_blank_label :
  exists p,
    lookup_product "plain-cap" (db_product blank_label_store) = Some p
    /\ p_sizes p = [mkSizeStock "" 5; mkSizeStock "M" 3]
    /\ first_in_stock (p_sizes p) = Some ""
    /\ add_to_cart "c1" (mkQuickAdd "plain-cap" None 1) blank_label_store
       = (Raise (mkHTTPException 400 "No available size"), blank_label_store).
Proof.
  eexists. split; [reflexivity|]. split; [reflexivity|].
  split; [reflexivity|]. vm_compute. reflexivity.
Qed.

(* ===================================================================== *)
(** ** Invariants of the OTP collections along request sequences          *)
(* ===================================================================== *)

Section Reachable.
Implicit Types s : Store.

Lemma step_otp_ok s r : otp_ok s -> otp_ok (step s r).
Proof.
  intros (Hu & Hs & Hb).
  destruct r as [payload|payload|cart_id|cart_id payload|cart_id payload];
    cbn [step].
  - split_and!; [by apply request_otp_unique|by apply request_otp_stripped|].
    rewrite request_otp_eq. by case_decide.
  - split_and!; [| |by apply verify_otp_sessions_below];
      rewrite verify_otp_eq; by repeat case_match.
  - rewrite get_cart_eq. by repeat case_match.
  - rewrite add_to_cart_eq. unfold ensure_cart. by repeat case_match.
  - rewrite update_cart_eq. by repeat case_match.
Qed.

Lemma run_otp_ok s rs : otp_ok s -> otp_ok (run rs s).
Proof.
  unfold run. revert s. induction rs as [|r rs IH]; intros s Hs; [done|].
  simpl. by apply IH, step_otp_ok.
Qed.

(** Every store reached from one without pending codes and sessions
    satisfies them. *)
Lemma run_from_blank_otp_ok s rs :
  db_otp s = [] -> db_session s = [] -> otp_ok (run rs s).
Proof.
  intros Ho Hs. apply run_otp_ok. unfold otp_ok, otp_unique, otp_stripped,
    sessions_below. rewrite Ho, Hs. split_and!; constructor.
Qed.
End Reachable.

(* ===================================================================== *)
(** ** The scenarios of the specification, run on the seeded catalog       *)
(* ===================================================================== *)

(** Closes a decidable goal on closed terms by evaluating its decision. *)
Ltac by_compute :=
  lazymatch goal with
  | |- ?P => refine (bool_decide_unpack P _); vm_compute; exact I
  end.

Example strip_both_ends : strip "  +1 555 123  " = "+1 555 123".
Proof. reflexivity. Qed.

Example strip_blank : strip "   " = "".
Proof. reflexivity. Qed.

Example crest_tee_default_size :
  items_of (add_to_cart "c1" (mkQuickAdd "crest-tee" None 1) seeded).2 "c1"
  = [mkItem "crest-tee" (Some "S") (Some 1)].
Proof. vm_compute. reflexivity. Qed.

Example crest_tee_merged :
  items_of
    (run [AddToCart "c1" (mkQuickAdd "crest-tee" None 1);
          AddToCart "c1" (mkQuickAdd "crest-tee" (Some "S") 2)] seeded) "c1"
  = [mkItem "crest-tee" (Some "S") (Some 3)].
Proof. vm_compute. reflexivity. Qed.

Example crest_tee_subtotal :
  cv_subtotal <$>
    match (get_cart "c1"
             (run [AddToCart "c1" (mkQuickAdd "crest-tee" None 1);
                   AddToCart "c1" (mkQuickAdd "crest-tee" (Some "S") 2)]
                seeded)).1 with
    | Return view => Some view
    | _ => None
    end
  = Some (Float (dollars 165)).
Proof. vm_compute. reflexivity. Qed.

Example round2_below_half : round2 (decimal 2675 1000) = decimal 267 100.
Proof. vm_compute. reflexivity. Qed.

Example round2_tie_to_even :
  round2 (decimal 125 1000) = decimal 12 100
  /\ round2 (decimal 375 1000) = decimal 38 100.
Proof. split; vm_compute; reflexivity. Qed.

Example round2_of_float_sum :
  fadd (decimal 1 10) (decimal 2 10) <> decimal 3 10
  /\ round2 (fadd (decimal 1 10) (decimal 2 10)) = decimal 3 10.
Proof. split; [|vm_compute; reflexivity]. vm_compute. discriminate. Qed.

Example subtotal_of_binary_price :
  (get_cart "c1" odd_price_store).1
  = Return
      (mkCartView "c1"
         [mkItemView (mkItem "patch" (Some "one") (Some 1))
            (Some (mkEnrichment "Patch" (decimal 2675 1000) "#7CFF2E" None))]
         (Float (decimal 267 100))).
Proof. vm_compute. reflexivity. Qed.

Example subtotal_beyond_largest_float :
  cv_subtotal <$>
    match (get_cart "c2" odd_price_store).1 with
    | Return view => Some view
    | _ => None
    end
  = Some (Float (S754_infinity false)).
Proof. vm_compute. reflexivity. Qed.

Example float_of_int_largest :
  float_of_int (int_too_large - 1)
  = Some (S754_finite false (2 ^ 53 - 1) 971)
  /\ float_of_int int_too_large = None
  /\ binary_normalize prec emax int_too_large 0 false = S754_infinity false.
Proof. split_and!; vm_compute; reflexivity. Qed.

Example add_overflow_leaves_empty_cart :
  (add_to_cart "c1" (mkQuickAdd "crest-tee" (Some "S") (2 ^ 63)) seeded).1
  = OverflowError
  /\ db_cart
       (add_to_cart "c1" (mkQuickAdd "crest-tee" (Some "S") (2 ^ 63))
          seeded).2 !! "c1"
     = Some (mkCartDoc [] None).
Proof. split; vm_compute; reflexivity. Qed.

Example add_largest_quantity :
  items_of
    (add_to_cart "c1" (mkQuickAdd "crest-tee" (Some "S") (2 ^ 63 - 1))
       seeded).2 "c1"
  = [mkItem "crest-tee" (Some "S") (Some (2 ^ 63 - 1))].
Proof. vm_compute. reflexivity. Qed.

Example sold_out_size_skipped :
  first_in_stock [mkSizeStock "S" 0; mkSizeStock "M" 2] = Some "M".
Proof. reflexivity. Qed.

Example demo_store_cart : db_cart demo_store !! "c1" = Some demo_cart.
Proof. vm_compute. reflexivity. Qed.

Example update_to_zero_removes :
  items_of
    (update_cart "c1" (mkUpdateItem "crest-tee" "S" (Some 0) None)
       demo_store).2 "c1"
  = [mkItem "stealth-hoodie" (Some "M") (Some 4)].
Proof. vm_compute. reflexivity. Qed.

Example wrong_code_unauthorized :
  (verify_otp (mkOTPVerify "+15551230000" "000000")
     (request_otp (mkOTPRequest "+15551230000") seeded).2).1
  = Raise unauthorized.
Proof. vm_compute. reflexivity. Qed.

Example right_code_issues_session :
  (verify_otp (mkOTPVerify "+15551230000" "123456")
     (request_otp (mkOTPRequest "+15551230000") seeded).2).1
  = Return 0%N.
Proof. vm_compute. reflexivity. Qed.

Example second_session_differs :
  (verify_otp (mkOTPVerify "+15551230000" "123456")
     (run [RequestOtp (mkOTPRequest "+15551230000");
           VerifyOtp (mkOTPVerify "+15551230000" "123456")] seeded)).1
  = Return 1%N.
Proof. vm_compute. reflexivity. Qed.

(* ===================================================================== *)
(** ** The statements at concrete inputs                                   *)
(* ===================================================================== *)

Lemma add_to_cart_merges_witness :
  lookup_product "crest-tee" (db_product seeded) = Some crest_tee
  /\ items_of (run (AddToCart "c1" <$> crest_adds) seeded) "c1"
     = [mkItem "crest-tee" (Some "S") (Some 4)].
Proof.
  split; [reflexivity|].
  destruct (add_to_cart_merges seeded "c1" "crest-tee" "S" crest_tee
              (mkQuickAdd "crest-tee" None 1)
              [mkQuickAdd "crest-tee" (Some "S") 2;
               mkQuickAdd "crest-tee" (Some "") 0])
    as (_ & Hall & _).
  - reflexivity.
  - by_compute.
  - by_compute.
  - by_compute.
  - reflexivity.
  - exact Hall.
Defined.

Lemma cart_invariant_witness :
  carts_empty seeded
  /\ db_cart (run demo_requests seeded) !! "c1" = Some demo_cart
  /\ NoDup (line_key <$> cart_items demo_cart).
Proof.
  assert (H1 : carts_empty seeded) by (unfold carts_empty; by_compute).
  assert (H2 : db_cart (run demo_requests seeded) !! "c1" = Some demo_cart)
    by (vm_compute; reflexivity).
  split; [exact H1|]. split; [exact H2|].
  exact (proj1 (cart_invariant seeded demo_requests "c1" demo_cart H1 H2)).
Defined.

Lemma add_to_cart_default_size_witness :
  lookup_product "crest-tee" (db_product seeded) = Some crest_tee
  /\ add_to_cart "c1" (mkQuickAdd "crest-tee" None 1) seeded
     = add_to_cart "c1" (mkQuickAdd "crest-tee" (Some "S") 1) seeded.
Proof.
  split; [reflexivity|].
  destruct (add_to_cart_default_size seeded "c1" "crest-tee" 1 crest_tee
              eq_refl) as [Hfirst _].
  apply (Hfirst 0%nat (mkSizeStock "S" 15)); [reflexivity|reflexivity| |].
  - intros j ss' _ Hj. lia.
  - discriminate.
Defined.


Lemma get_cart_creates_once_witness :
  db_cart seeded !! "c1" = None
  /\ db_cart (get_cart "c1" seeded).2 !! "c1" = Some (mkCartDoc [] (Some 0)).
Proof.
  split; [reflexivity|].
  destruct (get_cart_creates_once seeded "c1" eq_refl) as (_ & Hdoc & _).
  exact Hdoc.
Defined.

Lemma get_cart_frame_witness :
  db_cart demo_store !! "c1" = Some demo_cart
  /\ (get_cart "c1" demo_store).2 = demo_store.
Proof.
  assert (H1 : db_cart demo_store !! "c1" = Some demo_cart)
    by (vm_compute; reflexivity).
  split; [exact H1|].
  exact (proj1 (get_cart_frame demo_store "c1" demo_cart H1)).
Defined.

Lemma verify_otp_unauthorized_iff_witness :
  otp_unique (db_otp (pending seeded "+15551230000"))
  /\ sessions_below (pending seeded "+15551230000")
  /\ (verify_otp (mkOTPVerify "+15551230000" "000000")
        (pending seeded "+15551230000")).1
     = Raise unauthorized.
Proof.
  assert (H1 : otp_unique (db_otp (pending seeded "+15551230000")))
    by (unfold otp_unique; by_compute).
  assert (H2 : sessions_below (pending seeded "+15551230000"))
    by (unfold sessions_below; by_compute).
  split; [exact H1|]. split; [exact H2|].
  destruct (verify_otp_unauthorized_iff (pending seeded "+15551230000")
              (mkOTPVerify "+15551230000" "000000") H1 H2) as [Hiff _].
  apply Hiff. right. exists (mkOtpDoc "+15551230000" "123456").
  split; [apply list_elem_of_here|]. split; [reflexivity|]. discriminate.
Defined.

Lemma verify_otp_untrimmed_phone_witness :
  otp_stripped (db_otp seeded)
  /\ leading_space " +15551230000" || trailing_space " +15551230000" = true
  /\ (verify_otp (mkOTPVerify " +15551230000" "123456")
        (request_otp (mkOTPRequest " +15551230000") seeded).2).1
     = Raise unauthorized.
Proof.
  assert (H1 : otp_stripped (db_otp seeded))
    by (unfold otp_stripped; by_compute).
  split; [exact H1|]. split; [reflexivity|].
  destruct (verify_otp_untrimmed_phone seeded " +15551230000" H1 eq_refl)
    as [Hfail _].
  exact (f_equal fst Hfail).
Defined.

(* ===================================================================== *)
(** ** Browsing the catalog                                                *)
(* ===================================================================== *)

Lemma lookup_product_cons slug (p : Product) products :
  lookup_product slug (p :: products)
  = if decide (p_slug p = slug) then Some p else lookup_product slug products.
Proof.
  unfold lookup_product. cbn [list_find]. case_decide; [done|].
  by destruct (list_find _ products) as [[??]|].
Qed.

Lemma lookup_product_None slug (products : list Product) :
  lookup_product slug products = None
  <-> forall p, p ∈ products -> p_slug p <> slug.
Proof.
  unfold lookup_product. rewrite fmap_None, list_find_None, Forall_forall.
  done.
Qed.

(** The product found is the first one of the collection with the slug. *)
Lemma lookup_product_Some slug (products : list Product) p :
  lookup_product slug products = Some p
  <-> exists i, products !! i = Some p /\ p_slug p = slug
                /\ forall j q, products !! j = Some q -> (j < i)%nat ->
                               p_slug q <> slug.
Proof.
  unfold lookup_product. split.
  - intros Hp. destruct (list_find _ products) as [[i p']|] eqn:Hf;
      simplify_eq/=.
    apply list_find_Some in Hf as (Hi & Hs & Hfirst). by exists i.
  - intros (i & Hi & Hs & Hfirst).
    assert (list_find (fun p => p_slug p = slug) products = Some (i, p))
      as -> by by apply list_find_Some.
    done.
Qed.

Section CatalogFacts.
Implicit Types s : Store.

(** X1. [list_products] returns, without touching the store, the first
    60 of the products that match, or all of them when they are fewer: the
    products of the category when one is given and not empty, every product
    otherwise. They come in catalog order. *)
Theorem list_products_bounded s category :
  let matching :=
    match nonempty category with
    | Some c => filter (fun p => p_category p = c) (db_product s)
    | None => db_product s
    end in
  exists items,
    list_products category s = (Return items, s)
    /\ length items = Nat.min 60 (length matching)
    /\ items `prefix_of` matching
    /\ items `sublist_of` db_product s
    /\ forall c, nonempty category = Some c ->
         Forall (fun p => p_category p = c) items.
Proof.
  intros matching. eexists. split; [done|]. unfold find_products.
  fold matching. split_and!.
  - apply length_take.
  - apply prefix_take.
  - etrans; [apply sublist_take|]. subst matching.
    destruct (nonempty category); [apply sublist_filter|done].
  - intros c Hc. subst matching. rewrite Hc.
    apply Forall_forall. intros p Hp.
    apply elem_of_take in Hp as (i & Hi & _).
    apply list_elem_of_lookup_2, list_elem_of_filter in Hi. by destruct Hi.
Qed.

(** X2. When at most 60 products match, [list_products] returns all of
    them: with a non-empty category exactly the products of that category,
    and with no category (or the empty string) the whole catalog. *)
Theorem list_products_complete s category :
  match nonempty category with
  | Some c =>
      (length (filter (fun p => p_category p = c) (db_product s)) <= 60)%nat ->
      forall p,
        (exists items, (list_products category s).1 = Return items
                       /\ p ∈ items)
        <-> p ∈ db_product s /\ p_category p = c
  | None =>
      (length (db_product s) <= 60)%nat ->
      (list_products category s).1 = Return (db_product s)
  end.
Proof.
  unfold list_products, find_products. cbn [fst].
  destruct (nonempty category) as [c|]; intros Hlen.
  - intros p. rewrite take_ge by done. split.
    + intros (items & Hitems & Hp). simplify_eq.
      apply list_elem_of_filter in Hp. by destruct Hp.
    + intros [Hp Hc]. eexists. split; [done|].
      by apply list_elem_of_filter.
  - by rewrite take_ge.
Qed.

(** X3. [get_product] raises 404 exactly when no product of the catalog
    has the slug; a product it returns has the slug and is the first such
    product of the catalog; either way the store is left as it was. *)
Theorem get_product_first s slug :
  ((get_product slug s).1 = Raise (mkHTTPException 404 "Not found")
   <-> forall p, p ∈ db_product s -> p_slug p <> slug)
  /\ (forall p,
        (get_product slug s).1 = Return p
        <-> exists i, db_product s !! i = Some p /\ p_slug p = slug
                      /\ forall j q, db_product s !! j = Some q ->
                                     (j < i)%nat -> p_slug q <> slug)
  /\ (get_product slug s).2 = s.
Proof.
  unfold get_product, mbind, handler_bind, find_product.
  rewrite <- lookup_product_None.
  setoid_rewrite <- lookup_product_Some.
  destruct (lookup_product slug (db_product s)) as [p|]; cbn [fst snd].
  - split_and!; [split; done| |done].
    intros q. split; [by intros [= ->]|by intros [= ->]].
  - split_and!; [done| |done]. intros q. split; done.
Qed.

(** X4. [add_to_cart] raises 404 exactly when [get_product] does for the
    same slug. When it raises 404 or 400, the only statuses it raises, the
    store is left as it was. When the write of the items overflows, the
    line items are left as they were too, and all that changed is that the
    cart document exists: it was created empty if it was missing. *)
Theorem add_to_cart_raise_unchanged s cart_id payload :
  ((add_to_cart cart_id payload s).1
   = Raise (mkHTTPException 404 "Product not found")
   <-> (get_product (qa_slug payload) s).1
       = Raise (mkHTTPException 404 "Not found"))
  /\ (forall e,
        (add_to_cart cart_id payload s).1 = Raise e ->
        (add_to_cart cart_id payload s).2 = s
        /\ (e = mkHTTPException 404 "Product not found"
            \/ e = mkHTTPException 400 "No available size"))
  /\ ((add_to_cart cart_id payload s).1 = OverflowError ->
      (add_to_cart cart_id payload s).2
      = match db_cart s !! cart_id with
        | Some _ => s
        | None => put_cart s cart_id (mkCartDoc [] None)
        end
      /\ items_of (add_to_cart cart_id payload s).2 cart_id
         = items_of s cart_id).
Proof.
  rewrite add_to_cart_eq.
  unfold get_product, mbind, handler_bind, find_product.
  destruct (lookup_product (qa_slug payload) (db_product s)) as [p|];
    cbn [fst snd]; [|by split_and!; [|intros e [= <-]; auto|]].
  destruct (resolve_size _ _) as [size|]; cbn [fst snd];
    [|by split_and!; [|intros e [= <-]; auto|]].
  case_decide; cbn [fst snd]; [by split_and!|].
  split_and!; [done|done|]. intros _. unfold ensure_cart, items_of.
  destruct (db_cart s !! cart_id) as [c|] eqn:Hc; [by rewrite Hc|].
  split; [done|]. unfold put_cart. cbn [db_cart].
  by rewrite lookup_insert_eq.
Qed.
End CatalogFacts.

(* ===================================================================== *)
(** ** Requesting and verifying codes                                      *)
(* ===================================================================== *)

Lemma rstrip_empty s : rstrip s = "" <-> all_space s = true.
Proof.
  induction s as [|c s IH]; [done|]. cbn [rstrip all_space].
  rewrite andb_true_iff, <- IH.
  destruct (rstrip s) as [|c' r].
  - destruct (isspace c); split; try done. by intros [].
  - split; [done|]. by intros [_ ?].
Qed.

Lemma lstrip_all_space s : all_space (lstrip s) = all_space s.
Proof.
  induction s as [|c s IH]; [done|]. cbn [lstrip all_space].
  destruct (isspace c) eqn:Hc; [done|]. cbn [all_space]. by rewrite Hc.
Qed.

(** [strip] leaves nothing exactly of the strings made of whitespace. *)
Lemma strip_empty s : strip s = "" <-> all_space s = true.
Proof. unfold strip. by rewrite rstrip_empty, lstrip_all_space. Qed.

Lemma upserted_idemp phone code docs :
  upserted phone (mkOtpDoc phone code)
    (upserted phone (mkOtpDoc phone code) docs)
  = upserted phone (mkOtpDoc phone code) docs.
Proof.
  induction docs as [|d docs IH]; cbn [upserted].
  - cbn [upserted otp_phone]. by rewrite decide_True.
  - destruct (decide (otp_phone d = phone)) as [Hd|Hd]; cbn [upserted].
    + cbn [otp_phone]. by rewrite decide_True.
    + rewrite decide_False by done. by rewrite IH.
Qed.

Lemma upserted_Forall (P : OtpDoc -> Prop) phone doc docs :
  P doc -> Forall P docs -> Forall P (upserted phone doc docs).
Proof.
  intros Hdoc. induction 1 as [|d docs Hd Hds IH]; cbn [upserted].
  - by repeat constructor.
  - case_decide; by constructor.
Qed.

Lemma upserted_length phone code docs :
  length (upserted phone (mkOtpDoc phone code) docs)
  = if decide (phone ∈ otp_phone <$> docs) then length docs
    else S (length docs).
Proof.
  rewrite <- (length_fmap otp_phone), upserted_phones.
  case_decide; [by rewrite length_fmap|].
  rewrite length_app, length_fmap. simpl. lia.
Qed.

Section LoginFacts.
Implicit Types s : Store.

(** X5. [request_otp] raises 400 exactly when the phone is empty or made
    of whitespace only, and then leaves the store as it was; otherwise it
    returns the acknowledgement carrying the demo code. *)
Theorem request_otp_blank s payload :
  ((request_otp payload s).1 = Raise (mkHTTPException 400 "Phone required")
   <-> all_space (req_phone payload) = true)
  /\ (all_space (req_phone payload) = true -> (request_otp payload s).2 = s)
  /\ (all_space (req_phone payload) = false ->
      (request_otp payload s).1
      = Return (mkOtpResponse true "OTP sent (demo)" "123456")).
Proof.
  rewrite request_otp_eq, <- strip_empty.
  destruct (decide (strip (req_phone payload) = "")) as [Hb|Hb]; cbn [fst snd].
  - split_and!; [done|done|]. intros Hn. apply strip_empty in Hb.
    congruence.
  - split_and!; [split; [done|]| |done].
    + intros Hs. by destruct Hb.
    + intros Hs. by destruct Hb.
Qed.

(** X6. Requesting a code again for the same phone, written with or
    without surrounding whitespace, changes nothing: the second call
    returns what the first returned and leaves the store the first left. *)
Theorem request_otp_idempotent s payload payload' :
  strip (req_phone payload') = strip (req_phone payload) ->
  request_otp payload' (request_otp payload s).2 = request_otp payload s.
Proof.
  intros Hsame. rewrite (request_otp_eq payload s).
  destruct (decide (strip (req_phone payload) = "")) as [Hb|Hb]; cbn [snd].
  - rewrite request_otp_eq, Hsame. by rewrite decide_True.
  - rewrite request_otp_eq, Hsame. rewrite decide_False by done.
    unfold pending. cbn [db_product db_otp db_session db_cart next_oid].
    by rewrite upserted_idemp.
Qed.

(** X7. After a code was requested for a phone that is not blank, verifying
    the trimmed phone returns a session exactly with the code 123456 and
    raises 401 with any other, whatever the store held before. *)
Theorem request_then_verify s phone code :
  all_space phone = false ->
  let s1 := (request_otp (mkOTPRequest phone) s).2 in
  ((verify_otp (mkOTPVerify (strip phone) code) s1).1 = Raise unauthorized
   <-> code <> "123456")
  /\ verify_otp (mkOTPVerify (strip phone) "123456") s1
     = (Return (next_oid s), issued s1 (strip phone)).
Proof.
  intros Hphone s1.
  assert (Hb : strip phone <> "").
  { intros Hb%strip_empty. by rewrite Hb in Hphone. }
  assert (Hs1 : s1 = pending s (strip phone)).
  { subst s1. rewrite request_otp_eq. cbn [req_phone].
    by rewrite decide_False. }
  assert (Hv : forall c,
             verify_otp (mkOTPVerify (strip phone) c) (pending s (strip phone))
             = if decide (c ≠ "123456") then
                 (Raise unauthorized, pending s (strip phone))
               else
                 (Return (next_oid s),
                  issued (pending s (strip phone)) (strip phone))).
  { intros c. rewrite verify_otp_eq. cbn [ver_phone ver_code].
    change (db_otp (pending s (strip phone)))
      with (upserted (strip phone) (mkOtpDoc (strip phone) "123456")
              (db_otp s)).
    by rewrite upserted_lookup. }
  rewrite Hs1, !Hv. split.
  - destruct (decide (code ≠ "123456")) as [Hc|Hc]; cbn [fst]; [done|].
    split; [done|]. intros Hne. by destruct Hc.
  - by rewrite decide_False by auto.
Qed.

(** X8. A request for one phone leaves the pending record of every other
    phone, the sessions, the carts and the catalog as they were, and adds a
    record only when the phone had none. *)
Theorem request_otp_frame s payload :
  let s1 := (request_otp payload s).2 in
  (forall phone', phone' <> strip (req_phone payload) ->
                  lookup_otp phone' (db_otp s1) = lookup_otp phone' (db_otp s))
  /\ length (db_otp s1)
     = (if decide (strip (req_phone payload) = "") then length (db_otp s)
        else if decide (strip (req_phone payload) ∈ otp_phone <$> db_otp s)
             then length (db_otp s)
             else S (length (db_otp s)))
  /\ db_session s1 = db_session s /\ db_cart s1 = db_cart s
  /\ db_product s1 = db_product s /\ next_oid s1 = next_oid s.
Proof.
  intros s1. subst s1. rewrite request_otp_eq.
  destruct (decide (strip (req_phone payload) = "")) as [Hb|Hb]; cbn [snd];
    [done|].
  unfold pending. cbn [db_otp db_session db_cart db_product next_oid].
  split_and!; [|apply upserted_length|done..].
  intros phone' Hne. by apply upserted_lookup_ne.
Qed.

(** X9. Verification does not use the code up: a verification that
    returned a session returns another one when repeated, under the next
    identity, so that two session records for the phone are appended and
    the pending records stay as they were. *)
Theorem verify_otp_twice s payload sid :
  (verify_otp payload s).1 = Return sid ->
  let s1 := (verify_otp payload s).2 in
  verify_otp payload s1
  = (Return (N.succ sid), issued s1 (ver_phone payload))
  /\ sid <> N.succ sid
  /\ db_session (verify_otp payload s1).2
     = db_session s
       ++ [mkSessionDoc sid (ver_phone payload);
           mkSessionDoc (N.succ sid) (ver_phone payload)]
  /\ db_otp (verify_otp payload s1).2 = db_otp s.
Proof.
  intros Hfirst s1. subst s1. revert Hfirst.
  rewrite (verify_otp_eq payload s).
  destruct (lookup_otp (ver_phone payload) (db_otp s)) as [doc|] eqn:Hdoc;
    [|done].
  destruct (decide (ver_code payload ≠ otp_code doc)) as [Hc|Hc]; [done|].
  cbn [fst snd]. intros [= <-].
  assert (Hsecond :
            verify_otp payload (issued s (ver_phone payload))
            = (Return (N.succ (next_oid s)),
               issued (issued s (ver_phone payload)) (ver_phone payload))).
  { rewrite verify_otp_eq.
    change (db_otp (issued s (ver_phone payload))) with (db_otp s).
    rewrite Hdoc. by rewrite decide_False by done. }
  rewrite Hsecond. cbn [snd]. split_and!; [done|lia| |done].
  unfold issued. cbn [db_session next_oid]. by rewrite <- app_assoc.
Qed.

Lemma step_login_ok s r : login_ok s -> login_ok (step s r).
Proof.
  intros (Hu & Hd & Hb & Hn & Hv).
  destruct r as [payload|payload|cart_id|cart_id payload|cart_id payload];
    cbn [step].
  - rewrite request_otp_eq. case_decide as Hblank; [done|].
    unfold login_ok, pending, sessions_below, sessions_verified.
    cbn [snd db_otp db_session next_oid].
    split_and!; [by apply upserted_unique| |done|done|].
    + apply upserted_Forall; [|done]. split_and!; [done..|apply strip_idemp].
    + eapply Forall_impl; [exact Hv|]. intros d Hin. cbn beta in *.
      rewrite upserted_phones. case_decide; [done|].
      apply elem_of_app. by left.
  - rewrite verify_otp_eq.
    destruct (lookup_otp (ver_phone payload) (db_otp s)) as [doc|] eqn:Hdoc;
      [|done].
    case_decide as Hcode; [done|].
    apply lookup_otp_Some in Hdoc as [Hin Hphone].
    unfold login_ok, issued, sessions_below, sessions_verified.
    cbn [snd db_otp db_session next_oid].
    split_and!; [done|done| | |].
    + apply Forall_app. split.
      * eapply Forall_impl; [exact Hb|]. cbn beta. intros d Hlt. lia.
      * repeat constructor. cbn [sess_id]. lia.
    + rewrite fmap_app. apply NoDup_app.
      split_and!; [done| |apply NoDup_singleton].
      intros x (d & -> & Hd')%list_elem_of_fmap Hx%list_elem_of_singleton.
      cbn [sess_id] in Hx. unfold sessions_below in Hb.
      rewrite Forall_forall in Hb. specialize (Hb d Hd'). lia.
    + apply Forall_app. split; [done|]. repeat constructor.
      cbn [sess_phone]. rewrite <- Hphone. by apply list_elem_of_fmap_2.
  - rewrite get_cart_eq. by repeat case_match.
  - rewrite add_to_cart_eq. unfold ensure_cart. by repeat case_match.
  - rewrite update_cart_eq. by repeat case_match.
Qed.

Lemma run_login_ok s rs :
  db_otp s = [] -> db_session s = [] -> login_ok (run rs s).
Proof.
  intros Ho Hs.
  assert (Hok : login_ok s).
  { unfold login_ok, otp_unique, otp_demo, sessions_below, sessions_verified.
    rewrite Ho, Hs. split_and!; constructor. }
  clear Ho Hs. unfold run. revert s Hok.
  induction rs as [|r rs IH]; intros s Hok; [done|].
  simpl. by apply IH, step_login_ok.
Qed.

(** X10. From a store without pending codes and sessions, whatever the
    requests, no two session records carry the same identity. *)
Theorem session_ids_unique s rs :
  db_otp s = [] -> db_session s = [] ->
  NoDup (sess_id <$> db_session (run rs s)).
Proof.
  intros Ho Hs. by destruct (run_login_ok s rs Ho Hs) as (_ & _ & _ & Hn & _).
Qed.

(** X11. From such a store, every session record belongs to a phone for
    which a pending record with the demo code is held: sessions come from
    verification only, and pending records are never deleted. *)
Theorem sessions_have_pending_code s rs d :
  db_otp s = [] -> db_session s = [] ->
  d ∈ db_session (run rs s) ->
  lookup_otp (sess_phone d) (db_otp (run rs s))
  = Some (mkOtpDoc (sess_phone d) "123456").
Proof.
  intros Ho Hs Hd.
  destruct (run_login_ok s rs Ho Hs) as (Hu & Hdemo & _ & _ & Hv).
  unfold sessions_verified in Hv. rewrite Forall_forall in Hv.
  apply Hv in Hd. apply list_elem_of_fmap in Hd as (o & Hphone & Ho').
  unfold otp_demo in Hdemo. rewrite Forall_forall in Hdemo.
  destruct (Hdemo o Ho') as (Hcode & _).
  rewrite (lookup_otp_unique _ _ o Hu Ho' (eq_sym Hphone)).
  destruct o as [ph co]. cbn in *. by subst.
Qed.

(** X12. From such a store, the pending records are one per phone, each
    under a phone that is not empty and has no whitespace at either end,
    and each with the code 123456. *)
Theorem pending_records_shape s rs :
  db_otp s = [] -> db_session s = [] ->
  NoDup (otp_phone <$> db_otp (run rs s))
  /\ forall d, d ∈ db_otp (run rs s) ->
       otp_code d = "123456" /\ otp_phone d <> ""
       /\ leading_space (otp_phone d) = false
       /\ trailing_space (otp_phone d) = false.
Proof.
  intros Ho Hs.
  destruct (run_login_ok s rs Ho Hs) as (Hu & Hdemo & _).
  split; [done|]. intros d Hd.
  unfold otp_demo in Hdemo. rewrite Forall_forall in Hdemo.
  destruct (Hdemo d Hd) as (Hcode & Hne & Hstrip).
  split_and!; [done|done| |]; rewrite <- Hstrip.
  - apply strip_leading.
  - apply strip_trailing.
Qed.
End LoginFacts.

(* ===================================================================== *)
(** ** More on the cart handlers                                           *)
(* ===================================================================== *)

Lemma merge_item_floor slug size qty items :
  qty <= 1 -> merge_item slug size qty items = merge_item slug size 1 items.
Proof.
  intros Hq. unfold merge_item. by rewrite (Z.max_l 1 qty), (Z.max_l 1 1) by lia.
Qed.

(** An update that neither removes nor sets a quantity, or that finds no
    line for its pair, keeps every item. *)
Lemma updateItem_items_id payload items :
  (ui_qty payload = None /\ default false (ui_remove payload) = false)
  \/ Forall (fun it => ~ same_line (ui_slug payload) (ui_size payload) it)
       items ->
  updateItem_items payload items = items.
Proof.
  intros Hquiet. induction items as [|it items IH]; [done|].
  rewrite updateItem_items_cons.
  assert (updateItem_line (ui_slug payload) (ui_size payload)
            (ui_qty payload) (default false (ui_remove payload)) it
          = Some it) as ->.
  { destruct Hquiet as [[Hq Hr]|Hnone].
    - unfold updateItem_line. rewrite Hq, Hr. by case_decide.
    - apply updateItem_line_other. by apply Forall_cons in Hnone as [? _]. }
  rewrite IH; [done|]. destruct Hquiet as [?|Hnone]; [by left|right].
  by apply Forall_cons in Hnone as [_ ?].
Qed.

(** The pairs of the items an update keeps are pairs of the cart, in
    order. *)
Lemma updateItem_items_keys payload items :
  line_key <$> updateItem_items payload items `sublist_of` line_key <$> items.
Proof.
  induction items as [|it items IH]; [done|].
  rewrite updateItem_items_cons, (fmap_cons _ it).
  destruct (updateItem_line _ _ _ _ it) as [it'|] eqn:Hu.
  - rewrite fmap_cons, (updateItem_line_key _ _ _ _ _ _ Hu).
    by apply sublist_skip.
  - by apply sublist_cons.
Qed.

Lemma updateItem_items_idemp payload items :
  updateItem_items payload (updateItem_items payload items)
  = updateItem_items payload items.
Proof.
  induction items as [|it items IH]; [done|].
  rewrite updateItem_items_cons.
  destruct (updateItem_line _ _ _ _ it) as [it'|] eqn:Hu; [|done].
  rewrite updateItem_items_cons.
  assert (updateItem_line (ui_slug payload) (ui_size payload)
            (ui_qty payload) (default false (ui_remove payload)) it'
          = Some it') as ->; [|by rewrite IH].
  pose proof (updateItem_line_same _ _ _ _ _ _ Hu) as Hsame.
  unfold updateItem_line in *.
  destruct (decide (same_line (ui_slug payload) (ui_size payload) it))
    as [Hm|Hm].
  - rewrite decide_True by by apply Hsame.
    destruct (ui_qty payload) as [q|], (default false (ui_remove payload));
      try done.
    case_decide; [done|]. by simplify_eq.
  - simplify_eq. by rewrite decide_False.
Qed.

Lemma put_cart_id (s : Store) cart_id c :
  db_cart s !! cart_id = Some c -> put_cart s cart_id c = s.
Proof.
  intros Hc. unfold put_cart. rewrite insert_id by done. by destruct s.
Qed.

Lemma put_cart_comm (s : Store) cart_id1 cart_id2 c1 c2 :
  cart_id1 <> cart_id2 ->
  put_cart (put_cart s cart_id1 c1) cart_id2 c2
  = put_cart (put_cart s cart_id2 c2) cart_id1 c1.
Proof.
  intros Hne. unfold put_cart. simpl. f_equal.
  by apply insert_insert_ne.
Qed.

(** The amounts of a cart with one more line at its end. *)
Lemma amounts_snoc products items it :
  amounts products (items ++ [it])
  = ts ← amounts products items;
    match lookup_product (it_slug it) products with
    | Some p =>
        q ← float_of_int (quantity it); Some (ts ++ [fmul q (p_price p)])
    | None => Some ts
    end.
Proof.
  induction items as [|a items IH].
  - cbn [app]. rewrite amounts_cons.
    change (amounts products []) with (Some (@nil float)).
    cbn [mbind option_bind].
    destruct (lookup_product _ _); [|done].
    by destruct (float_of_int _).
  - rewrite <- app_comm_cons, !amounts_cons, IH.
    destruct (lookup_product (it_slug a) products) as [pa|]; [|done].
    destruct (float_of_int (quantity a)) as [qa|]; [|done].
    cbn [mbind option_bind].
    destruct (amounts products items) as [ts|]; [|done].
    cbn [mbind option_bind].
    destruct (lookup_product (it_slug it) products) as [p|]; [|done].
    by destruct (float_of_int (quantity it)).
Qed.

Lemma ensure_cart_lookup (s : Store) cart_id :
  exists c, db_cart (ensure_cart s cart_id) !! cart_id = Some c
            /\ cart_items c = items_of s cart_id.
Proof.
  unfold ensure_cart, items_of.
  destruct (db_cart s !! cart_id) as [c|] eqn:Hc; [by exists c|].
  exists (mkCartDoc [] None). unfold put_cart. cbn [db_cart].
  by rewrite lookup_insert_eq.
Qed.

Lemma items_of_ensure_cart (s : Store) cart_id cart_id' :
  items_of (ensure_cart s cart_id) cart_id' = items_of s cart_id'.
Proof.
  unfold ensure_cart.
  destruct (db_cart s !! cart_id) as [c|] eqn:Hc; [done|].
  destruct (decide (cart_id = cart_id')) as [<-|Hne].
  - rewrite items_of_put_cart. unfold items_of. by rewrite Hc.
  - by apply items_of_put_cart_ne.
Qed.

Section MoreCartFacts.
Implicit Types s : Store.

(** What a request on a cart does to the store depends on the catalog and
    on that cart alone, and is at most a write of that cart. *)
Lemma step_cart_shape r cart_id :
  cart_target r = Some cart_id ->
  exists g : list Product -> option CartDoc -> option CartDoc,
    forall s,
      step s r
      = match g (db_product s) (db_cart s !! cart_id) with
        | Some c => put_cart s cart_id c
        | None => s
        end.
Proof.
  destruct r as [?|?|cid|cid payload|cid payload]; intros [= <-].
  - exists (fun _ old =>
              match old with
              | Some _ => None
              | None => Some (mkCartDoc [] (Some 0))
              end).
    intros s. cbn [step]. rewrite get_cart_eq. by destruct (db_cart s !! cid).
  - exists (fun products old =>
              match lookup_product (qa_slug payload) products with
              | None => None
              | Some p =>
                  match resolve_size (p_sizes p) (qa_size payload) with
                  | None => None
                  | Some size =>
                      if decide
                           (encodable
                              (merge_item (qa_slug payload) size
                                 (qa_qty payload)
                                 (match old with
                                  | Some c => cart_items c
                                  | None => []
                                  end)))
                      then
                        Some (mkCartDoc
                                (merge_item (qa_slug payload) size
                                   (qa_qty payload)
                                   (match old with
                                    | Some c => cart_items c
                                    | None => []
                                    end))
                                (old ≫= cart_subtotal))
                      else
                        match old with
                        | Some _ => None
                        | None => Some (mkCartDoc [] None)
                        end
                  end
              end).
    intros s. cbn [step]. rewrite add_to_cart_eq. unfold items_of, ensure_cart.
    destruct (lookup_product _ _) as [p|]; [|done].
    destruct (resolve_size _ _) as [size|]; [|done].
    destruct (db_cart s !! cid) as [c|]; by case_decide.
  - exists (fun _ old =>
              match old with
              | None => None
              | Some c =>
                  if decide
                       (encodable (updateItem_items payload (cart_items c)))
                  then
                    Some (mkCartDoc (updateItem_items payload (cart_items c))
                            (cart_subtotal c))
                  else None
              end).
    intros s. cbn [step]. rewrite update_cart_eq.
    destruct (db_cart s !! cid); [by case_decide|done].
Qed.

(** X13. With an explicit non-empty size, [add_to_cart] never consults the
    declared sizes or their stock: for a product that resolves, whatever it
    declares, the call merges a line for that size and returns when the
    merged quantities are 8-byte ints; when one is not, the write fails
    with an [OverflowError] and the cart stays as it was, created empty if
    it was missing. *)
Theorem add_to_cart_explicit_size s cart_id slug size qty p :
  lookup_product slug (db_product s) = Some p ->
  size <> "" ->
  add_to_cart cart_id (mkQuickAdd slug (Some size) qty) s
  = if decide (encodable (merge_item slug size qty (items_of s cart_id))) then
      (Return true,
       put_cart s cart_id
         (mkCartDoc (merge_item slug size qty (items_of s cart_id))
            (db_cart s !! cart_id ≫= cart_subtotal)))
    else (OverflowError, ensure_cart s cart_id).
Proof.
  intros Hp Hsize. rewrite add_to_cart_eq. cbn [qa_slug qa_size qa_qty].
  rewrite Hp. unfold resolve_size. cbn [nonempty].
  destruct size as [|c size]; done.
Qed.

(** X14. A requested quantity of 1 or less, zero and negative ones
    included, is not rejected: the call does exactly what it does for a
    quantity of 1. *)
Theorem add_to_cart_quantity_floor s cart_id slug size qty :
  qty <= 1 ->
  add_to_cart cart_id (mkQuickAdd slug size qty) s
  = add_to_cart cart_id (mkQuickAdd slug size 1) s.
Proof.
  intros Hq. rewrite !add_to_cart_eq. cbn [qa_slug qa_size qa_qty].
  destruct (lookup_product slug (db_product s)) as [p|]; [|done].
  destruct (resolve_size (p_sizes p) size) as [sz|]; [|done].
  by rewrite (merge_item_floor _ _ qty) by done.
Qed.

(** X15. A request leaves alone every cart but the one it names, and a cart
    request leaves the pending codes, the sessions and the identity
    generator as they were. *)
Theorem step_frame s r :
  (forall cart_id, cart_target r <> Some cart_id ->
                   db_cart (step s r) !! cart_id = db_cart s !! cart_id)
  /\ (cart_target r <> None ->
      db_otp (step s r) = db_otp s /\ db_session (step s r) = db_session s
      /\ next_oid (step s r) = next_oid s).
Proof.
  split.
  - intros cart_id Hne.
    destruct (cart_target r) as [cid|] eqn:Ht.
    + destruct (step_cart_shape r cid Ht) as [g Hg]. rewrite Hg.
      destruct (g _ _); [|done]. unfold put_cart. cbn [db_cart].
      apply lookup_insert_ne. congruence.
    + destruct r; try discriminate; cbn [step].
      * rewrite request_otp_eq. by case_decide.
      * rewrite verify_otp_eq. by repeat case_match.
  - intros Ht. destruct (cart_target r) as [cid|] eqn:Hcid; [|done].
    destruct (step_cart_shape r cid Hcid) as [g Hg]. rewrite Hg.
    by destruct (g _ _).
Qed.

(** X16. No sequence of requests changes the catalog: in particular adding
    to a cart never takes anything off the stock. *)
Theorem run_catalog_unchanged s rs : db_product (run rs s) = db_product s.
Proof.
  unfold run. revert s. induction rs as [|r rs IH]; intros s; [done|].
  simpl. rewrite IH. apply step_product.
Qed.

(** X17. On an existing cart, an update with no quantity and without
    [remove], or for a pair the cart has no line for, leaves the whole
    store as it was; it returns on every cart the store can hold, the
    write of the unchanged items failing only for quantities that are not
    8-byte ints. *)
Theorem update_cart_noop s cart_id payload c :
  db_cart s !! cart_id = Some c ->
  (ui_qty payload = None /\ ui_remove payload <> Some true)
  \/ Forall (fun it => ~ same_line (ui_slug payload) (ui_size payload) it)
       (cart_items c) ->
  update_cart cart_id payload s
  = (if decide (encodable (cart_items c)) then Return true
     else OverflowError, s).
Proof.
  intros Hc Hquiet. rewrite update_cart_eq, Hc.
  rewrite updateItem_items_id.
  - case_decide; [|done]. f_equal. apply put_cart_id. by destruct c.
  - destruct Hquiet as [[Hq Hr]|Hnone]; [left|by right].
    split; [done|]. by destruct (ui_remove payload) as [[]|].
Qed.

(** X18. [update_cart] raises 404 exactly when the cart does not exist. It
    never creates or deletes a cart, and never adds a line item: the pairs
    of the items it leaves are pairs the cart had, in their order. *)
Theorem update_cart_shrinks s cart_id payload :
  let s1 := (update_cart cart_id payload s).2 in
  ((update_cart cart_id payload s).1
   = Raise (mkHTTPException 404 "Cart not found")
   <-> db_cart s !! cart_id = None)
  /\ dom (db_cart s1) = dom (db_cart s)
  /\ line_key <$> items_of s1 cart_id `sublist_of`
     line_key <$> items_of s cart_id
  /\ (length (items_of s1 cart_id) <= length (items_of s cart_id))%nat.
Proof.
  intros s1.
  assert (Hsub : line_key <$> items_of s1 cart_id `sublist_of`
                 line_key <$> items_of s cart_id).
  { subst s1. rewrite update_cart_eq. unfold items_of at 2.
    destruct (db_cart s !! cart_id) as [c|] eqn:Hc; cbn [snd].
    - case_decide; cbn [snd].
      + rewrite items_of_put_cart. apply updateItem_items_keys.
      + unfold items_of. by rewrite Hc.
    - unfold items_of. by rewrite Hc. }
  split_and!; [| |done|].
  - rewrite update_cart_eq.
    destruct (db_cart s !! cart_id); [by case_decide|done].
  - subst s1. rewrite update_cart_eq.
    destruct (db_cart s !! cart_id) as [c|] eqn:Hc; [|done].
    case_decide; [|done].
    unfold put_cart. cbn [snd db_cart]. by apply dom_insert_lookup_L.
  - apply sublist_length in Hsub. by rewrite !length_fmap in Hsub.
Qed.

(** X19. [update_cart] is idempotent for every payload, not only for a
    removal: the second of two equal calls returns what the first returned
    and leaves the store the first left. *)
Theorem update_cart_idempotent s cart_id payload :
  update_cart cart_id payload (update_cart cart_id payload s).2
  = update_cart cart_id payload s.
Proof.
  rewrite (update_cart_eq cart_id payload s).
  destruct (db_cart s !! cart_id) as [c|] eqn:Hc; cbn [snd].
  - destruct (decide (encodable (updateItem_items payload (cart_items c))))
      as [Hok|Hno]; cbn [snd].
    + rewrite update_cart_put_cart. cbn [cart_items cart_subtotal].
      rewrite updateItem_items_idemp. by rewrite decide_True.
    + rewrite update_cart_eq, Hc. by rewrite decide_False.
  - by rewrite update_cart_eq, Hc.
Qed.

(** X20. Adding a line item to a cart that has none for the pair and then
    removing it, with [remove] or with a quantity of at most 0, gives back
    the item sequence the cart had, also when the addition failed on its
    write; the removal returns on every cart the store can hold. *)
Theorem add_then_remove s cart_id payload payload' p size :
  lookup_product (qa_slug payload) (db_product s) = Some p ->
  resolve_size (p_sizes p) (qa_size payload) = Some size ->
  Forall (fun it => ~ same_line (qa_slug payload) size it)
    (items_of s cart_id) ->
  ui_slug payload' = qa_slug payload -> ui_size payload' = size ->
  drops payload' = true ->
  let s1 := (add_to_cart cart_id payload s).2 in
  (update_cart cart_id payload' s1).1
  = (if decide (encodable (items_of s cart_id)) then Return true
     else OverflowError)
  /\ items_of (update_cart cart_id payload' s1).2 cart_id
     = items_of s cart_id.
Proof.
  intros Hp Hsize Hnone Hslug Hsz Hdrop s1. subst s1.
  assert (Hkeep : updateItem_items payload' (items_of s cart_id)
                  = items_of s cart_id)
    by (apply updateItem_items_id; right; by rewrite Hslug, Hsz).
  assert (Hback : updateItem_items payload'
                    (merge_item (qa_slug payload) size (qa_qty payload)
                       (items_of s cart_id))
                  = items_of s cart_id).
  { rewrite merge_item_append by done.
    unfold updateItem_items. rewrite omap_app.
    fold (updateItem_items payload' (items_of s cart_id)).
    rewrite Hkeep, omap_cons. unfold updateItem_line. rewrite Hslug, Hsz.
    rewrite decide_True by by split.
    unfold drops in Hdrop.
    destruct (ui_qty payload') as [q|], (default false (ui_remove payload'));
      cbn in Hdrop; try done; cbn [omap list_omap]; rewrite ?app_nil_r;
      try done.
    rewrite decide_True by by apply Z.leb_le. by rewrite app_nil_r. }
  rewrite add_to_cart_eq, Hp, Hsize.
  destruct (decide (encodable (merge_item (qa_slug payload) size
                                 (qa_qty payload) (items_of s cart_id))))
    as [Hok|Hno]; cbn [snd].
  - rewrite update_cart_put_cart. cbn [cart_items cart_subtotal].
    rewrite Hback.
    assert (Henc : encodable (items_of s cart_id)).
    { rewrite merge_item_append in Hok by done.
      by apply Forall_app in Hok as [? _]. }
    rewrite !decide_True by done. cbn [fst snd].
    by rewrite items_of_put_cart.
  - destruct (ensure_cart_lookup s cart_id) as (c & Hc & Hitems).
    rewrite update_cart_eq, Hc, Hitems, Hkeep.
    case_decide; cbn [fst snd]; (split; [done|]).
    + by rewrite items_of_put_cart.
    + apply items_of_ensure_cart.
Qed.

(** X21. Requests on two different carts commute: served in either order
    they leave the same store. *)
Theorem cart_requests_commute s r1 r2 cart_id1 cart_id2 :
  cart_target r1 = Some cart_id1 -> cart_target r2 = Some cart_id2 ->
  cart_id1 <> cart_id2 ->
  step (step s r1) r2 = step (step s r2) r1.
Proof.
  intros Ht1 Ht2 Hne.
  destruct (step_cart_shape r1 cart_id1 Ht1) as [g1 Hg1].
  destruct (step_cart_shape r2 cart_id2 Ht2) as [g2 Hg2].
  assert (Hother : forall cid cid' c, cid <> cid' ->
            db_cart (put_cart s cid c) !! cid' = db_cart s !! cid').
  { intros cid cid' c Hn. unfold put_cart. cbn [db_cart].
    by apply lookup_insert_ne. }
  rewrite (Hg1 s), (Hg2 s).
  destruct (g1 (db_product s) (db_cart s !! cart_id1)) as [c1|] eqn:E1,
    (g2 (db_product s) (db_cart s !! cart_id2)) as [c2|] eqn:E2.
  - rewrite Hg2, Hg1.
    change (db_product (put_cart s cart_id1 c1)) with (db_product s).
    change (db_product (put_cart s cart_id2 c2)) with (db_product s).
    rewrite !Hother by done. rewrite E1, E2. by apply put_cart_comm.
  - rewrite Hg2, Hg1.
    change (db_product (put_cart s cart_id1 c1)) with (db_product s).
    rewrite Hother by done. by rewrite E1, E2.
  - rewrite Hg2, Hg1.
    change (db_product (put_cart s cart_id2 c2)) with (db_product s).
    rewrite Hother by done. by rewrite E1, E2.
  - rewrite Hg2, Hg1. by rewrite E1, E2.
Qed.

(** X22. Viewing a cart right after a line item was appended to it, on a
    cart the store can hold and with [max(1, qty)] below 2 ^ 63: the call
    returns the earlier lines followed by the new one, enriched from its
    product, and the subtotal is the rounding to 2 decimal places of the
    float sum of the earlier amounts, taken from 0 in cart order, plus
    [max(1, qty)] times the price. *)
Theorem add_then_get s cart_id payload p size :
  lookup_product (qa_slug payload) (db_product s) = Some p ->
  resolve_size (p_sizes p) (qa_size payload) = Some size ->
  Forall (fun it => ~ same_line (qa_slug payload) size it)
    (items_of s cart_id) ->
  encodable (items_of s cart_id) ->
  Z.max 1 (qa_qty payload) < 2 ^ 63 ->
  let s1 := (add_to_cart cart_id payload s).2 in
  let line :=
    mkItem (qa_slug payload) (Some size) (Some (Z.max 1 (qa_qty payload))) in
  exists ts q,
    amounts (db_product s) (items_of s cart_id) = Some ts
    /\ float_of_int (Z.max 1 (qa_qty payload)) = Some q
    /\ get_cart cart_id s1
       = (Return
            (mkCartView cart_id
               ((present_line (db_product s) <$> items_of s cart_id)
                ++ [mkItemView line
                      (Some (mkEnrichment (p_name p) (p_price p) (p_accent p)
                               (head (p_images p))))])
               (Float
                  (round2
                     (fadd (foldl fadd (S754_zero false) ts)
                        (fmul q (p_price p)))))),
          s1).
Proof.
  intros Hp Hsize Hnone Henc Hqty s1 line. subst s1.
  destruct (amounts_encodable (db_product s) _ Henc) as [ts Hts].
  destruct (float_of_int_int64 (Z.max 1 (qa_qty payload))) as [q Hq];
    [unfold int64; lia|].
  exists ts, q. split; [done|]. split; [done|].
  rewrite add_to_cart_eq, Hp, Hsize.
  rewrite merge_item_append by done. fold line.
  rewrite decide_True.
  2:{ apply Forall_app. split; [done|]. constructor; [|constructor].
      unfold item_encodable, int64. cbn [it_qty line]. lia. }
  cbn [snd]. rewrite get_cart_eq. unfold put_cart at 1. cbn [db_cart].
  rewrite lookup_insert_eq. cbn [cart_items].
  change (db_product (put_cart s cart_id _)) with (db_product s).
  unfold view_outcome. rewrite amounts_snoc, Hts. cbn [mbind option_bind].
  cbn [it_slug line]. rewrite Hp.
  change (quantity line) with (Z.max 1 (qa_qty payload)). rewrite Hq.
  cbn [mbind option_bind]. rewrite fmap_app. cbn [fmap list_fmap].
  assert (present_line (db_product s) line
          = mkItemView line
              (Some (mkEnrichment (p_name p) (p_price p) (p_accent p)
                       (head (p_images p))))) as ->
    by (unfold present_line; cbn [it_slug line]; by rewrite Hp).
  assert (subtotal_of (ts ++ [fmul q (p_price p)])
          = Float (round2 (fadd (foldl fadd (S754_zero false) ts)
                             (fmul q (p_price p))))) as ->
    by (rewrite <- (foldl_snoc fadd); by destruct ts).
  done.
Qed.

(** X23. The subtotal a cart document is stored with is never brought up
    to date: from a store without carts, after any requests, every cart
    document has either no subtotal or the 0 it was created with. *)
Theorem stored_subtotal_stale s rs cart_id c :
  db_cart s = ∅ ->
  db_cart (run rs s) !! cart_id = Some c ->
  cart_subtotal c = None \/ cart_subtotal c = Some 0.
Proof.
  intros Hs.
  assert (Hinv : map_Forall
            (fun _ c => cart_subtotal c = None \/ cart_subtotal c = Some 0)
            (db_cart s)) by (rewrite Hs; apply map_Forall_empty).
  clear Hs. unfold run. revert s Hinv cart_id c.
  induction rs as [|r rs IH]; intros s Hinv cart_id c; [apply Hinv|].
  simpl. apply IH. clear IH.
  destruct (cart_target r) as [cid|] eqn:Ht.
  - destruct r as [?|?|cid'|cid' payload|cid' payload];
      simplify_eq/=.
    + rewrite get_cart_eq.
      destruct (db_cart s !! cid) as [c0|] eqn:Hc; [done|].
      apply map_Forall_insert_2; [by right|done].
    + rewrite add_to_cart_eq. unfold ensure_cart.
      destruct (lookup_product _ _) as [p|]; [|done].
      destruct (resolve_size _ _) as [size|]; [|done].
      destruct (db_cart s !! cid) as [c0|] eqn:Hc; case_decide; cbn [snd];
        try done.
      all: apply map_Forall_insert_2; [|done]; cbn.
      * exact (Hinv _ _ Hc).
      * by left.
      * by left.
    + rewrite update_cart_eq.
      destruct (db_cart s !! cid) as [c0|] eqn:Hc; [|done].
      case_decide; [|done].
      apply map_Forall_insert_2; [|done]. exact (Hinv _ _ Hc).
  - destruct r; try discriminate; cbn [step].
    + rewrite request_otp_eq. by case_decide.
    + rewrite verify_otp_eq. by repeat case_match.
Qed.
End MoreCartFacts.

(* ===================================================================== *)
(** ** What requests never undo                                            *)
(* ===================================================================== *)

Section Persistence.
Implicit Types s : Store.

Lemma step_persist s r :
  db_session s `prefix_of` db_session (step s r)
  /\ (forall phone, phone ∈ otp_phone <$> db_otp s ->
                    phone ∈ otp_phone <$> db_otp (step s r))
  /\ dom (db_cart s) ⊆ dom (db_cart (step s r)).
Proof.
  destruct (cart_target r) as [cid|] eqn:Ht.
  - destruct (step_cart_shape r cid Ht) as [g Hg]. rewrite Hg.
    destruct (g _ _) as [c|]; [|done].
    unfold put_cart. cbn [db_session db_otp db_cart].
    split_and!; [done|done|]. rewrite dom_insert_L. set_solver.
  - destruct r as [payload|payload| | |]; try discriminate; cbn [step].
    + rewrite request_otp_eq. case_decide; [done|].
      unfold pending. cbn [snd db_session db_otp db_cart].
      split_and!; [done| |done]. intros phone Hin.
      rewrite upserted_phones. case_decide; [done|].
      apply elem_of_app. by left.
    + rewrite verify_otp_eq. repeat case_match; try done.
      unfold issued. cbn [snd db_session db_otp db_cart].
      split_and!; [|done|done]. by apply prefix_app_r.
Qed.

(** X25. Nothing a request sequence does is a deletion: the session
    records it starts from stay, in place, ahead of the ones it adds; a
    phone with a pending record keeps one; and every cart that exists goes on
    existing. *)
Theorem run_persist s rs :
  db_session s `prefix_of` db_session (run rs s)
  /\ (forall phone, phone ∈ otp_phone <$> db_otp s ->
                    phone ∈ otp_phone <$> db_otp (run rs s))
  /\ dom (db_cart s) ⊆ dom (db_cart (run rs s)).
Proof.
  unfold run. revert s. induction rs as [|r rs IH]; intros s; [done|].
  cbn [foldl]. destruct (step_persist s r) as (Hs & Ho & Hc).
  destruct (IH (step s r)) as (Hs' & Ho' & Hc').
  split_and!; [by etrans|auto|by etrans].
Qed.

(** X26. When the cart, one the store can hold, already has a line item
    for the pair, whatever its place, [add_to_cart] adds [max(1, qty)] to
    the quantity of the first such line where it stands, as long as the sum
    is below 2 ^ 63, and then returns; from 2 ^ 63 on the write fails with
    an [OverflowError] and the items stay as they were. Either way the
    other items and the order are as before. *)
Theorem add_to_cart_in_place s cart_id payload p size c i it :
  lookup_product (qa_slug payload) (db_product s) = Some p ->
  resolve_size (p_sizes p) (qa_size payload) = Some size ->
  db_cart s !! cart_id = Some c ->
  encodable (cart_items c) ->
  cart_items c !! i = Some it ->
  same_line (qa_slug payload) size it ->
  (forall j it', cart_items c !! j = Some it' -> (j < i)%nat ->
                 ~ same_line (qa_slug payload) size it') ->
  let call := add_to_cart cart_id payload s in
  let total := quantity it + Z.max 1 (qa_qty payload) in
  (if decide (total < 2 ^ 63) then
     call.1 = Return true
     /\ items_of call.2 cart_id
        = <[i := mkItem (it_slug it) (it_size it) (Some total)]> (cart_items c)
   else call = (OverflowError, s))
  /\ length (items_of call.2 cart_id) = length (cart_items c)
  /\ forall j, j <> i -> items_of call.2 cart_id !! j = cart_items c !! j.
Proof.
  intros Hp Hsize Hc Henc Hi Hsame Hfirst call total.
  assert (Hmerge : merge_item (qa_slug payload) size (qa_qty payload)
                     (items_of s cart_id)
                   = <[i := mkItem (it_slug it) (it_size it) (Some total)]>
                       (cart_items c)).
  { unfold items_of. rewrite Hc. unfold merge_item.
    assert (list_find (same_line (qa_slug payload) size) (cart_items c)
            = Some (i, it)) as -> by by apply list_find_Some.
    done. }
  assert (Hlow : - 2 ^ 63 <= total).
  { pose proof (Forall_lookup_1 _ _ _ _ Henc Hi) as Hit.
    subst total. unfold item_encodable, int64, quantity in *.
    destruct (it_qty it); lia. }
  assert (Hok : encodable
                  (merge_item (qa_slug payload) size (qa_qty payload)
                     (items_of s cart_id))
                <-> total < 2 ^ 63).
  { rewrite Hmerge. split.
    - intros Hall.
      assert (Hlt : (i < length (cart_items c))%nat)
        by by eapply lookup_lt_Some.
      pose proof (Forall_lookup_1 _ _ _ _ Hall
                    (list_lookup_insert_eq _ _ _ Hlt)) as [_ Hhi].
      exact Hhi.
    - intros Hhi. apply Forall_insert; [done|]. split; [exact Hlow|exact Hhi]. }
  assert (Hcall : call
                  = if decide (total < 2 ^ 63) then
                      (Return true,
                       put_cart s cart_id
                         (mkCartDoc
                            (<[i := mkItem (it_slug it) (it_size it)
                                      (Some total)]> (cart_items c))
                            (cart_subtotal c)))
                    else (OverflowError, s)).
  { subst call. rewrite add_to_cart_eq, Hp, Hsize.
    destruct (decide (total < 2 ^ 63)) as [Hhi|Hhi].
    - rewrite decide_True by by apply Hok. by rewrite Hmerge, Hc.
    - rewrite decide_False by by rewrite Hok.
      unfold ensure_cart. by rewrite Hc. }
  rewrite Hcall.
  assert (Hs : items_of s cart_id = cart_items c)
    by (unfold items_of; by rewrite Hc).
  destruct (decide (total < 2 ^ 63)) as [Hhi|Hhi]; cbn [fst snd].
  - rewrite items_of_put_cart. cbn [cart_items].
    split_and!; [done|done|apply length_insert|].
    intros j Hj. by apply list_lookup_insert_ne.
  - rewrite Hs. by split_and!.
Qed.
End Persistence.

(* ===================================================================== *)
(** ** What the store holds                                                *)
(* ===================================================================== *)

Section Storable.
Implicit Types s : Store.

Lemma step_carts_storable s r : carts_storable s -> carts_storable (step s r).
Proof.
  intros Hs.
  destruct r as [payload|payload|cart_id|cart_id payload|cart_id payload];
    cbn [step].
  - rewrite request_otp_eq. by case_decide.
  - rewrite verify_otp_eq. by repeat case_match.
  - rewrite get_cart_eq.
    destruct (db_cart s !! cart_id) as [c|]; [done|].
    apply map_Forall_insert_2; [constructor|done].
  - rewrite add_to_cart_eq.
    destruct (lookup_product _ _) as [p|]; [|done].
    destruct (resolve_size _ _) as [size|]; [|done].
    case_decide; cbn [snd].
    + by apply map_Forall_insert_2.
    + unfold ensure_cart. destruct (db_cart s !! cart_id); [done|].
      apply map_Forall_insert_2; [constructor|done].
  - rewrite update_cart_eq.
    destruct (db_cart s !! cart_id) as [c|]; [|done].
    case_decide; [|done]. by apply map_Forall_insert_2.
Qed.

(** X28. Every quantity a cart is stored with is an 8-byte int, and stays
    one along any request sequence: a failing write stores nothing. So on
    every store reached that way [get_cart] returns a view, for every cart
    id: no stored quantity is too large for a float. *)
Theorem run_carts_storable s rs :
  carts_storable s ->
  carts_storable (run rs s)
  /\ forall cart_id, exists view, (get_cart cart_id (run rs s)).1 = Return view.
Proof.
  intros Hs.
  assert (Hrun : carts_storable (run rs s)).
  { unfold run. revert s Hs. induction rs as [|r rs IH]; intros s Hs; [done|].
    cbn [foldl]. by apply IH, step_carts_storable. }
  split; [done|]. intros cart_id. rewrite get_cart_eq.
  destruct (db_cart (run rs s) !! cart_id) as [c|] eqn:Hc; [|by eexists].
  unfold view_outcome.
  destruct (amounts_encodable (db_product (run rs s)) _ (Hrun _ _ Hc))
    as [ts ->].
  by eexists.
Qed.
End Storable.

(* ===================================================================== *)
(** ** Seeding                                                             *)
(* ===================================================================== *)

(** X24. [seed_products] fills an empty catalog with the three sample
    products and leaves a catalog that holds any product as it is; run
    again it reports the catalog as already seeded, with its size, and
    changes nothing. The other collections are never touched. *)
Theorem seed_products_once (s : Store) :
  let s1 := (seed_products s).2 in
  db_product s1 = (if decide (db_product s = []) then seed else db_product s)
  /\ seed_products s1
     = (Return (mkSeedResponse true "Products already seeded"
                  (Z.of_nat (length (db_product s1)))),
        s1)
  /\ db_otp s1 = db_otp s /\ db_session s1 = db_session s
  /\ db_cart s1 = db_cart s /\ next_oid s1 = next_oid s.
Proof.
  intros s1.
  assert (Hfull : forall t : Store,
            db_product t <> [] ->
            seed_products t
            = (Return (mkSeedResponse true "Products already seeded"
                         (Z.of_nat (length (db_product t)))),
               t)).
  { intros t Ht. unfold seed_products, mbind, handler_bind, count_products.
    rewrite decide_True; [done|]. destruct (db_product t); [done|].
    simpl. lia. }
  destruct (decide (db_product s = [])) as [Hempty|Hfilled].
  - assert (Hs1 : s1 = mkStore seed (db_otp s) (db_session s) (db_cart s)
                         (next_oid s)).
    { subst s1. unfold seed_products, mbind, handler_bind, count_products.
      rewrite Hempty. cbn [length]. rewrite decide_False by lia.
      cbn [for_each seed]. unfold mbind, handler_bind, create_product.
      cbn [snd db_product db_otp db_session db_cart next_oid mret handler_ret].
      by rewrite Hempty. }
    rewrite Hs1. cbn [db_product db_otp db_session db_cart next_oid].
    split_and!; [done| |done..]. by rewrite Hfull.
  - assert (Hs1 : s1 = s) by (subst s1; by rewrite Hfull).
    rewrite Hs1. split_and!; [done| |done..]. by rewrite Hfull.
Qed.

(* ===================================================================== *)
(** ** The further statements at concrete inputs                           *)
(* ===================================================================== *)

Lemma request_otp_idempotent_witness :
  strip "  +15551230000 " = strip "+15551230000"
  /\ request_otp (mkOTPRequest "  +15551230000 ")
       (request_otp (mkOTPRequest "+15551230000") seeded).2
     = request_otp (mkOTPRequest "+15551230000") seeded.
Proof.
  split; [reflexivity|].
  apply (request_otp_idempotent seeded (mkOTPRequest "+15551230000")
           (mkOTPRequest "  +15551230000 ")).
  reflexivity.
Defined.

Lemma request_then_verify_witness :
  all_space " +15551230000" = false
  /\ verify_otp (mkOTPVerify "+15551230000" "123456")
       (request_otp (mkOTPRequest " +15551230000") seeded).2
     = (Return 0%N,
        issued (request_otp (mkOTPRequest " +15551230000") seeded).2
          "+15551230000").
Proof.
  split; [reflexivity|].
  exact (proj2 (request_then_verify seeded " +15551230000" "123456" eq_refl)).
Defined.

Lemma verify_otp_twice_witness :
  (verify_otp (mkOTPVerify "+15551230000" "123456")
     (pending seeded "+15551230000")).1 = Return 0%N
  /\ (verify_otp (mkOTPVerify "+15551230000" "123456")
        (verify_otp (mkOTPVerify "+15551230000" "123456")
           (pending seeded "+15551230000")).2).1
     = Return 1%N.
Proof.
  split; [reflexivity|].
  destruct (verify_otp_twice (pending seeded "+15551230000")
              (mkOTPVerify "+15551230000" "123456") 0%N eq_refl)
    as [Hsecond _].
  exact (f_equal fst Hsecond).
Defined.

Lemma session_ids_unique_witness :
  db_otp seeded = [] /\ db_session seeded = []
  /\ NoDup (sess_id <$> db_session (run login_requests seeded)).
Proof.
  split; [reflexivity|]. split; [reflexivity|].
  exact (session_ids_unique seeded login_requests eq_refl eq_refl).
Defined.

Lemma sessions_have_pending_code_witness :
  mkSessionDoc 1%N "+15551230000" ∈ db_session (run login_requests seeded)
  /\ lookup_otp "+15551230000" (db_otp (run login_requests seeded))
     = Some (mkOtpDoc "+15551230000" "123456").
Proof.
  assert (Hd : mkSessionDoc 1%N "+15551230000"
               ∈ db_session (run login_requests seeded)) by by_compute.
  split; [exact Hd|].
  exact (sessions_have_pending_code seeded login_requests _ eq_refl eq_refl
           Hd).
Defined.

Lemma pending_records_shape_witness :
  db_otp seeded = [] /\ db_session seeded = []
  /\ NoDup (otp_phone <$> db_otp (run login_requests seeded)).
Proof.
  split; [reflexivity|]. split; [reflexivity|].
  exact (proj1 (pending_records_shape seeded login_requests eq_refl eq_refl)).
Defined.

Lemma add_to_cart_explicit_size_witness :
  lookup_product "stealth-hoodie" (db_product seeded) = Some stealth_hoodie
  /\ "L" <> ""
  /\ (add_to_cart "c1" (mkQuickAdd "stealth-hoodie" (Some "L") 1) seeded).1
     = Return true.
Proof.
  assert (Hsize : "L" <> "") by discriminate.
  split; [reflexivity|]. split; [exact Hsize|].
  exact (f_equal fst
           (add_to_cart_explicit_size seeded "c1" "stealth-hoodie" "L" 1
              stealth_hoodie eq_refl Hsize)).
Defined.

Lemma add_to_cart_quantity_floor_witness :
  -3 <= 1
  /\ add_to_cart "c1" (mkQuickAdd "crest-tee" None (-3)) seeded
     = add_to_cart "c1" (mkQuickAdd "crest-tee" None 1) seeded.
Proof.
  assert (Hq : -3 <= 1) by lia.
  split; [exact Hq|].
  exact (add_to_cart_quantity_floor seeded "c1" "crest-tee" None (-3) Hq).
Defined.

Lemma update_cart_noop_witness :
  db_cart demo_store !! "c1" = Some demo_cart
  /\ update_cart "c1" (mkUpdateItem "crest-tee" "S" None None) demo_store
     = (Return true, demo_store).
Proof.
  assert (H1 : db_cart demo_store !! "c1" = Some demo_cart)
    by (vm_compute; reflexivity).
  split; [exact H1|].
  apply (update_cart_noop demo_store "c1"
           (mkUpdateItem "crest-tee" "S" None None) demo_cart H1).
  left. split; [reflexivity|discriminate].
Defined.

Lemma add_then_remove_witness :
  lookup_product "volt-sneaker" (db_product demo_store) = Some volt_sneaker
  /\ items_of
       (update_cart "c1" (mkUpdateItem "volt-sneaker" "7" (Some 0) None)
          (add_to_cart "c1" (mkQuickAdd "volt-sneaker" None 2) demo_store).2).2
       "c1"
     = items_of demo_store "c1".
Proof.
  split; [reflexivity|].
  destruct (add_then_remove demo_store "c1"
              (mkQuickAdd "volt-sneaker" None 2)
              (mkUpdateItem "volt-sneaker" "7" (Some 0) None)
              volt_sneaker "7") as [_ Hitems].
  - reflexivity.
  - reflexivity.
  - by_compute.
  - reflexivity.
  - reflexivity.
  - reflexivity.
  - exact Hitems.
Defined.

Lemma cart_requests_commute_witness :
  "c1" <> "c2"
  /\ step (step seeded (AddToCart "c1" (mkQuickAdd "crest-tee" None 1)))
       (AddToCart "c2" (mkQuickAdd "stealth-hoodie" (Some "M") 2))
     = step (step seeded
               (AddToCart "c2" (mkQuickAdd "stealth-hoodie" (Some "M") 2)))
         (AddToCart "c1" (mkQuickAdd "crest-tee" None 1)).
Proof.
  assert (Hne : "c1" <> "c2") by discriminate.
  split; [exact Hne|].
  exact (cart_requests_commute seeded
           (AddToCart "c1" (mkQuickAdd "crest-tee" None 1))
           (AddToCart "c2" (mkQuickAdd "stealth-hoodie" (Some "M") 2))
           "c1" "c2" eq_refl eq_refl Hne).
Defined.

Lemma add_then_get_witness :
  lookup_product "volt-sneaker" (db_product demo_store) = Some volt_sneaker
  /\ exists view,
       (get_cart "c1"
          (add_to_cart "c1" (mkQuickAdd "volt-sneaker" None 2) demo_store).2).1
       = Return view
       /\ cv_subtotal view = Float (dollars 1085).
Proof.
  split; [reflexivity|].
  assert (Hnone : Forall (fun it => ~ same_line "volt-sneaker" "7" it)
                    (items_of demo_store "c1")) by by_compute.
  assert (Henc : encodable (items_of demo_store "c1")) by by_compute.
  assert (Hqty : Z.max 1 2 < 2 ^ 63) by (vm_compute; reflexivity).
  destruct (add_then_get demo_store "c1" (mkQuickAdd "volt-sneaker" None 2)
              volt_sneaker "7" eq_refl eq_refl Hnone Henc Hqty)
    as (ts & q & Hts & Hq & Hview).
  eexists. split.
  - exact (f_equal fst Hview).
  - vm_compute in Hts. vm_compute in Hq.
    injection Hts as <-. injection Hq as <-.
    vm_compute. reflexivity.
Defined.

Lemma stored_subtotal_stale_witness :
  db_cart seeded = ∅
  /\ db_cart (run demo_requests seeded) !! "c1" = Some demo_cart
  /\ (cart_subtotal demo_cart = None \/ cart_subtotal demo_cart = Some 0).
Proof.
  assert (H2 : db_cart (run demo_requests seeded) !! "c1" = Some demo_cart)
    by (vm_compute; reflexivity).
  split; [reflexivity|]. split; [exact H2|].
  exact (stored_subtotal_stale seeded demo_requests "c1" demo_cart eq_refl H2).
Defined.

Lemma add_to_cart_in_place_witness :
  db_cart demo_store !! "c1" = Some demo_cart
  /\ encodable (cart_items demo_cart)
  /\ items_of
       (add_to_cart "c1" (mkQuickAdd "crest-tee" None 0) demo_store).2 "c1"
     = [mkItem "crest-tee" (Some "S") (Some 4);
        mkItem "stealth-hoodie" (Some "M") (Some 4)].
Proof.
  assert (H1 : db_cart demo_store !! "c1" = Some demo_cart)
    by (vm_compute; reflexivity).
  assert (H2 : encodable (cart_items demo_cart)) by by_compute.
  split; [exact H1|]. split; [exact H2|].
  destruct (add_to_cart_in_place demo_store "c1"
              (mkQuickAdd "crest-tee" None 0) crest_tee "S" demo_cart 0%nat
              (mkItem "crest-tee" (Some "S") (Some 3)))
    as [[_ Hitems] _].
  - reflexivity.
  - reflexivity.
  - exact H1.
  - exact H2.
  - reflexivity.
  - by_compute.
  - intros j it' _ Hj. lia.
  - exact Hitems.
Defined.

Lemma run_carts_storable_witness :
  carts_storable seeded
  /\ carts_storable (run demo_requests seeded)
  /\ exists view, (get_cart "c1" (run demo_requests seeded)).1 = Return view.
Proof.
  assert (H0 : carts_storable seeded) by apply map_Forall_empty.
  split; [exact H0|].
  destruct (run_carts_storable seeded demo_requests H0) as [Hall Hview].
  split; [exact Hall|exact (Hview "c1")].
Defined.
